(** * MaxText/train_tokenizer.py: corpus sampling and tokenizer publication

    A shallow embedding of [_dump_chars_to_textfile] and
    [_train_sentencepiece].  Python integers are [Z], [bytes] values are
    lists of [byte], a dataset record is a finite map from field names to
    [bytes], and the dataset iterator is the list of the records still to be
    pulled.

    Calls to the outside are threaded through a state and exception monad.
    Its state holds the files written through Python file objects and the
    trace of the calls made so far, in order.  [next] on an exhausted
    iterator raises [StopIteration], a missing field raises [KeyError], and
    the trainer returns or raises as the environment decides; the
    [tf.io.gfile] calls, [time.sleep] and [logging.info] are recorded and
    return.  What other processes do shows only in the answers of
    [tf.io.gfile.exists], which the environment gives poll by poll. *)

From stdpp Require Import gmap strings list pretty.
From Stdlib Require Import ZArith Lia Strings.Byte.

(** ** Data *)

Abbreviation bytes := (list byte).
Abbreviation record := (gmap string bytes).

(** [b"..."] literals. *)
Definition b (s : string) : bytes := String.list_byte_of_string s.

(** [b'\n'] *)
Definition newline : bytes := [x0a].

(** [len(x)] of a [bytes] value. *)
Definition len (x : bytes) : Z := Z.of_nat (length x).

(** [s.startswith(p)]. *)
Definition startswith (s p : string) : bool := String.prefix p s.

(** The exceptions the two functions can let escape. *)
Inductive exn : Type :=
| StopIteration                       (* next() on an exhausted iterator *)
| KeyError (k : string)               (* example[k] on a missing field *)
| UnboundLocalError (v : string)      (* a local read before assignment *)
| TrainerError (argstr : string).     (* SentencePieceTrainer.Train failed *)

(** Calls that reach outside the process, with their operands and, for the
    calls that have one, the answer they got. *)
Inductive event : Type :=
| EvNext (example : option record)
| EvTempFile (prefix name : string)
| EvWrite (name : string) (line : bytes)
| EvTrain (argstr : string)
| EvMakedirs (path : string)
| EvCopy (src dst : string) (overwrite : bool)
| EvRename (src dst : string) (overwrite : bool)
| EvExists (path : string) (answer : bool)
| EvSleep (secs : Z)
| EvLogInfo (msg : string).

(** What the process does not control: its rank, the names the operating
    system picks for temporary files, whether the trainer succeeds, what
    other processes have made visible at a path when it is polled, and the
    [os.path] functions, which depend on the working directory and the home
    directory. *)
Record Env : Type := {
  process_index : Z;
  tmp_suffix : nat → string;
  trainer_ok : string → bool;
  path_exists : nat → string → bool;
  abspath : string → string;
  expanduser : string → string;
}.

Record world : Type := {
  files : gmap string bytes;
  trace : list event;
  tmp_count : nat;
  poll_count : nat;
}.

(** ** The monad *)

Inductive outcome (A : Type) : Type :=
| Returned (a : A)
| Raised (e : exn)
| OutOfFuel.
Arguments Returned {A} a.
Arguments Raised {A} e.
Arguments OutOfFuel {A}.

Definition M (A : Type) : Type := world → outcome A * world.

Definition ret {A} (a : A) : M A := λ w, (Returned a, w).

Definition raise {A} (e : exn) : M A := λ w, (Raised e, w).

Definition bind {A B} (m : M A) (k : A → M B) : M B :=
  λ w, match m w with
       | (Returned a, w') => k a w'
       | (Raised e, w') => (Raised e, w')
       | (OutOfFuel, w') => (OutOfFuel, w')
       end.

Declare Scope prog_scope.
Delimit Scope prog_scope with prog.
Notation "x <- m ;; k" := (bind m (λ x, k))
  (at level 20, m at level 99, k at level 200, only parsing) : prog_scope.
Notation "' pat <- m ;; k" := (bind m (λ pat, k))
  (at level 20, pat pattern, m at level 99, k at level 200, only parsing) : prog_scope.
Notation "m ;; k" := (bind m (λ _, k))
  (at level 100, k at level 200, only parsing, right associativity) : prog_scope.
Local Open Scope prog_scope.

Definition emit (e : event) : M unit :=
  λ w, (Returned tt,
        {| files := files w; trace := trace w ++ [e];
           tmp_count := tmp_count w; poll_count := poll_count w |}).

(** [example[k]] *)
Definition getitem (example : gmap string bytes) (k : string) : M bytes :=
  match example !! k with
  | Some v => ret v
  | None => raise (KeyError k)
  end.

(** [outfp.write(line)]: the file object is known by its name. *)
Definition write (outfp : string) (line : bytes) : M unit :=
  λ w, (Returned tt,
        {| files := <[outfp := default [] (files w !! outfp) ++ line]> (files w);
           trace := trace w ++ [EvWrite outfp line];
           tmp_count := tmp_count w; poll_count := poll_count w |}).

Section Program.

Variable env : Env.

(** [tempfile.NamedTemporaryFile(delete=False, prefix=prefix)]: a new, empty
    file whose name is the prefix followed by characters the system picks. *)
Definition NamedTemporaryFile (prefix : string) : M string :=
  λ w, let name := prefix +:+ tmp_suffix env (tmp_count w) in
       (Returned name,
        {| files := <[name := []]> (files w);
           trace := trace w ++ [EvTempFile prefix name];
           tmp_count := S (tmp_count w); poll_count := poll_count w |}).

(** ** [_dump_chars_to_textfile] *)

(** [for k in data_keys: ...] *)
Fixpoint for_data_keys (outfp : string) (example : gmap string bytes)
    (data_keys : list string) (char_count : Z) : M Z :=
  match data_keys with
  | [] => ret char_count
  | k :: data_keys =>
      v <- getitem example k ;;
      let line := v ++ newline in
      let char_count := (char_count + len line)%Z in
      write outfp line ;;
      for_data_keys outfp example data_keys char_count
  end.

(** [while char_count < maxchars: example = next(ds_iter); ...].  Every turn
    pulls one record, so the loop is structural in the iterator. *)
Fixpoint while_char_count (maxchars : Z) (outfp : string)
    (data_keys : list string) (ds_iter : list (gmap string bytes))
    (char_count : Z) : M Z :=
  if (char_count <? maxchars)%Z then
    match ds_iter with
    | [] => emit (EvNext None) ;; raise StopIteration
    | example :: ds_iter =>
        emit (EvNext (Some example)) ;;
        char_count <- for_data_keys outfp example data_keys char_count ;;
        while_char_count maxchars outfp data_keys ds_iter char_count
    end
  else ret char_count.

Definition _dump_chars_to_textfile (dataset : list (gmap string bytes))
    (maxchars : Z) (data_keys : list string) : M (string * Z) :=
  let char_count := 0%Z in
  let ds_iter := dataset in
  outfp <- NamedTemporaryFile "/tmp/ds_chars" ;;
  char_count <- while_char_count maxchars outfp data_keys ds_iter char_count ;;
  ret (outfp, char_count).

(** ** [_train_sentencepiece] *)

(** [SentencePieceTrainer.Train(argstr)] *)
Definition SentencePieceTrainer_Train (argstr : string) : M unit :=
  emit (EvTrain argstr) ;;
  if trainer_ok env argstr then ret tt else raise (TrainerError argstr).

(** [tf.io.gfile.makedirs], [copy], [rename] and [exists] *)
Definition gfile_makedirs (path : string) : M unit := emit (EvMakedirs path).

Definition gfile_copy (src dst : string) (overwrite : bool) : M unit :=
  emit (EvCopy src dst overwrite).

Definition gfile_rename (src dst : string) (overwrite : bool) : M unit :=
  emit (EvRename src dst overwrite).

Definition gfile_exists (path : string) : M bool :=
  λ w, let answer := path_exists env (poll_count w) path in
       (Returned answer,
        {| files := files w; trace := trace w ++ [EvExists path answer];
           tmp_count := tmp_count w; poll_count := S (poll_count w) |}).

(** [time.sleep(secs)] and [logging.info(msg)] *)
Definition time_sleep (secs : Z) : M unit := emit (EvSleep secs).

Definition logging_info (msg : string) : M unit := emit (EvLogInfo msg).

(** [while not tf.io.gfile.exists(path): time.sleep(1)].  Nothing bounds the
    number of turns, so the model counts them down from [fuel]. *)
Fixpoint while_not_exists (fuel : nat) (path : string) : M unit :=
  match fuel with
  | O => λ w, (OutOfFuel, w)
  | S fuel =>
      found <- gfile_exists path ;;
      if negb found then time_sleep 1 ;; while_not_exists fuel path
      else ret tt
  end.

(** Floating point is outside the model: [character_coverage] is only ever
    formatted into the argument string, by [str_float]. *)
Variable float : Type.
Variable str_float : float → string.

(** [fuel] bounds the turns of the waiting loop and nothing else. *)
Definition _train_sentencepiece (fuel : nat)
    (dataset : list (gmap string bytes)) (vocab_size maxchars : Z)
    (assets_path model_path model_type : string)
    (character_coverage : float) (data_keys : list string) : M string :=
  let '(abs_model_path, abs_assets_path) :=
    if startswith model_path "gs://" then (model_path, None)
    else (abspath env (expanduser env model_path),
          Some (abspath env (expanduser env assets_path))) in
  '(fname, _) <- _dump_chars_to_textfile dataset maxchars data_keys ;;
  model_fp <- NamedTemporaryFile "/tmp/sp_tmp" ;;
  let argstr := String.concat " " [
      "--input=" +:+ fname; "--vocab_size=" +:+ pretty vocab_size;
      "--character_coverage=" +:+ str_float character_coverage;
      "--model_prefix=" +:+ model_fp; "--model_type=" +:+ model_type ] in
  SentencePieceTrainer_Train argstr ;;
  (if (process_index env =? 0)%Z then
     let copy_rename_path := abs_model_path +:+ ".rntmp" in
     (if negb (startswith model_path "gs://") then
        match abs_assets_path with
        | Some abs_assets_path => gfile_makedirs abs_assets_path
        | None => raise (UnboundLocalError "abs_assets_path")
        end
      else ret tt) ;;
     gfile_copy (model_fp +:+ ".model") copy_rename_path true ;;
     gfile_rename copy_rename_path abs_model_path true ;;
     logging_info ("copied " +:+ (model_fp +:+ ".model") +:+ " to " +:+ abs_model_path)
   else
     while_not_exists fuel abs_model_path ;;
     time_sleep 1) ;;
  ret abs_model_path.

End Program.

(** ** What a stream holds *)

(** The bytes one field contributes: its value and a newline. *)
Definition line_of (v : bytes) : bytes := v ++ newline.

Definition serialize (fields : list bytes) : bytes := concat (map line_of fields).

(** The values of the configured fields of one record, in key order; [None]
    when the record lacks one of them. *)
Fixpoint record_fields (data_keys : list string) (example : gmap string bytes)
    : option (list bytes) :=
  match data_keys with
  | [] => Some []
  | k :: data_keys =>
      match example !! k, record_fields data_keys example with
      | Some v, Some vs => Some (v :: vs)
      | _, _ => None
      end
  end.

(** The same for a run of records, record after record. *)
Fixpoint stream_fields (data_keys : list string) (ds : list (gmap string bytes))
    : option (list bytes) :=
  match ds with
  | [] => Some []
  | example :: ds =>
      match record_fields data_keys example, stream_fields data_keys ds with
      | Some vs, Some rest => Some (vs ++ rest)
      | _, _ => None
      end
  end.

(** The calls the sampler makes for a run of records it pulls. *)
Definition sample_events (outfp : string) (data_keys : list string)
    (ds : list (gmap string bytes)) : list event :=
  concat (map (λ example,
    EvNext (Some example) ::
    map (λ v, EvWrite outfp (line_of v))
        (default [] (record_fields data_keys example))) ds).

(** The lines a trace writes to one file, and the number of records it pulls. *)
Definition writes_to (outfp : string) (evs : list event) : list bytes :=
  omap (λ e, match e with
             | EvWrite name line => if decide (name = outfp) then Some line else None
             | _ => None
             end) evs.

Definition pulls (evs : list event) : list (option (gmap string bytes)) :=
  omap (λ e, match e with EvNext r => Some r | _ => None end) evs.

(** The name of the scratch file a call of the sampler creates. *)
Definition scratch_name (env : Env) (w : world) : string :=
  "/tmp/ds_chars" +:+ tmp_suffix env (tmp_count w).

(** ** Describing a run of the coordinator *)

(** [abs_model_path] and [abs_assets_path] as the function computes them. *)
Definition final_path (env : Env) (model_path : string) : string :=
  if startswith model_path "gs://" then model_path
  else abspath env (expanduser env model_path).

Definition assets_dir (env : Env) (assets_path : string) : string :=
  abspath env (expanduser env assets_path).

(** The name of the second temporary file of a call started in [w]: the
    sampler has taken one name before it. *)
Definition sp_tmp_name (env : Env) (w : world) : string :=
  "/tmp/sp_tmp" +:+ tmp_suffix env (S (tmp_count w)).

(** The argument string handed to the trainer. *)
Definition train_args (fname vocab_size character_coverage model_prefix
    model_type : string) : string :=
  String.concat " " [
    "--input=" +:+ fname; "--vocab_size=" +:+ vocab_size;
    "--character_coverage=" +:+ character_coverage;
    "--model_prefix=" +:+ model_prefix; "--model_type=" +:+ model_type ].

Definition add_events (w : world) (evs : list event) : world :=
  {| files := files w; trace := trace w ++ evs;
     tmp_count := tmp_count w; poll_count := poll_count w |}.

(** The world once the trainer has been called: one more temporary file,
    two more calls. *)
Definition trained (w1 : world) (model_fp argstr : string) : world :=
  {| files := <[model_fp := []]> (files w1);
     trace := trace w1 ++ [EvTempFile "/tmp/sp_tmp" model_fp; EvTrain argstr];
     tmp_count := S (tmp_count w1); poll_count := poll_count w1 |}.

(** The calls of the branch taken by process 0. *)
Definition publish_events (env : Env) (assets_path model_path model_fp : string)
    : list event :=
  let abs_model_path := final_path env model_path in
  (if startswith model_path "gs://" then []
   else [EvMakedirs (assets_dir env assets_path)])
  ++ [EvCopy (model_fp +:+ ".model") (abs_model_path +:+ ".rntmp") true;
      EvRename (abs_model_path +:+ ".rntmp") abs_model_path true;
      EvLogInfo ("copied " +:+ (model_fp +:+ ".model") +:+ " to " +:+ abs_model_path)].

(** The paths at which a call creates, replaces or removes a file: a rename
    touches both of its operands.  [makedirs] makes directories only, and the
    trainer's files are the ones its argument string names. *)
Definition touched (e : event) : list string :=
  match e with
  | EvTempFile _ name => [name]
  | EvWrite name _ => [name]
  | EvCopy _ dst _ => [dst]
  | EvRename src dst _ => [src; dst]
  | _ => []
  end.

(** Sampling and training work; waiting. *)
Definition working_call (e : event) : Prop :=
  match e with
  | EvNext _ | EvTempFile _ _ | EvWrite _ _ | EvTrain _ => True
  | _ => False
  end.

Definition polling_call (e : event) : Prop :=
  match e with
  | EvExists _ _ | EvSleep _ => True
  | _ => False
  end.

(** [k] unanswered polls, each followed by a sleep of one second. *)
Definition missed_polls (path : string) (k : nat) : list event :=
  concat (replicate k [EvExists path false; EvSleep 1]).

(** The calls every process makes before it looks at its rank: the scratch
    file, the records pulled and the lines written, the second temporary file
    and the trainer. *)
Definition work_events (env : Env) (data_keys : list string)
    (pulled : list (gmap string bytes)) (argstr : string) (w : world)
    : list event :=
  EvTempFile "/tmp/ds_chars" (scratch_name env w)
  :: sample_events (scratch_name env w) data_keys pulled
  ++ [EvTempFile "/tmp/sp_tmp" (sp_tmp_name env w); EvTrain argstr].

(** ** Concrete inputs *)

(** The stream of scenarios A and B. *)
Definition records_A : list (gmap string bytes) :=
  [ {[ "text" := b "ab" ]}; {[ "text" := b "cd" ]}; {[ "text" := b "ef" ]} ].

(** A record with two configured fields. *)
Definition record_xy : gmap string bytes := {[ "a" := b "x"; "b" := b "y" ]}.

(** A process of rank [rank] for which a polled path becomes visible at
    the poll numbered [visible_from]; temporary files are numbered, the
    trainer succeeds, the working directory is [/work]. *)
Definition test_env (rank : Z) (visible_from : nat) : Env :=
  {| process_index := rank;
     tmp_suffix := λ k, pretty k;
     trainer_ok := λ _, true;
     path_exists := λ k _, bool_decide (visible_from ≤ k);
     abspath := λ p, if startswith p "/" then p else "/work/" +:+ p;
     expanduser := λ p, p |}.

Definition fresh_world : world :=
  {| files := ∅; trace := []; tmp_count := 0; poll_count := 0 |}.

(** The specification's reading of the budget: the counter is looked at
    before every field, not before every record. *)
Fixpoint fields_within_budget (maxchars : Z) (vs : list bytes) (count : Z)
    : list bytes :=
  match vs with
  | [] => []
  | v :: vs =>
      if (count <? maxchars)%Z
      then v :: fields_within_budget maxchars vs (count + len (line_of v))
      else []
  end.

(** ** [train_tokenizer] *)

Section Caller.

Variable env : Env.
Variable float : Type.
Variable str_float : float → string.

(** The literal [1.0], the default of [character_coverage]. *)
Variable float_1_0 : float.

(** The caller leaves [model_type] and [character_coverage] at their
    defaults, ['unigram'] and [1.0], and returns nothing. *)
Definition train_tokenizer (fuel : nat) (dataset : list (gmap string bytes))
    (assets_path vocab_path : string) (vocab_size max_corpus_chars : Z)
    (data_keys : list string) : M unit :=
  logging_info "SentencePiece vocab not found, building one from data." ;;
  vocab_path <- _train_sentencepiece env float str_float fuel dataset vocab_size
                  max_corpus_chars assets_path vocab_path "unigram" float_1_0
                  data_keys ;;
  logging_info ("Model saved at " +:+ vocab_path).

End Caller.

(** The calls of the publishing branch. *)
Definition publishing_call (e : event) : Prop :=
  match e with
  | EvMakedirs _ | EvCopy _ _ _ | EvRename _ _ _ | EvLogInfo _ => True
  | _ => False
  end.

(** The process of [test_env] with a trainer that fails. *)
Definition failing_env (rank : Z) : Env :=
  {| process_index := rank;
     tmp_suffix := tmp_suffix (test_env rank 0);
     trainer_ok := λ _, false;
     path_exists := path_exists (test_env rank 0);
     abspath := abspath (test_env rank 0);
     expanduser := expanduser (test_env rank 0) |}.

(** * Proofs *)

(** ** Basic facts *)

Lemma len_nonneg x : (0 ≤ len x)%Z.
Proof. unfold len. lia. Qed.

Lemma len_app x y : len (x ++ y) = (len x + len y)%Z.
Proof. unfold len. rewrite length_app. lia. Qed.

Lemma len_line_of v : len (line_of v) = (len v + 1)%Z.
Proof. unfold line_of. rewrite len_app. reflexivity. Qed.

Lemma serialize_cons v vs : serialize (v :: vs) = line_of v ++ serialize vs.
Proof. reflexivity. Qed.

Lemma serialize_app vs1 vs2 : serialize (vs1 ++ vs2) = serialize vs1 ++ serialize vs2.
Proof. unfold serialize. by rewrite map_app, concat_app. Qed.

Lemma len_serialize vs :
  len (serialize vs) = foldr (λ v acc, (len v + 1 + acc)%Z) 0%Z vs.
Proof.
  induction vs as [|v vs IH]; [done|].
  rewrite serialize_cons, len_app, len_line_of, IH. simpl. lia.
Qed.

Lemma bind_returned {A B} (m : M A) (k : A → M B) w a w1 :
  m w = (Returned a, w1) → bind m k w = k a w1.
Proof. unfold bind. by intros ->. Qed.

Lemma bind_raised {A B} (m : M A) (k : A → M B) w e w1 :
  m w = (Raised e, w1) → bind m k w = (Raised e, w1).
Proof. unfold bind. by intros ->. Qed.

Section SamplerFacts.

Variable env : Env.
Variable maxchars : Z.
Variable outfp : string.
Variable data_keys : list string.

(** The body of the [for] loop on one record: it writes every configured
    field, or stops at the first missing one. *)
Lemma for_data_keys_spec example char_count w c0 :
  files w !! outfp = Some c0 →
  match record_fields data_keys example with
  | Some vs =>
      ∃ w', for_data_keys outfp example data_keys char_count w
            = (Returned (char_count + len (serialize vs))%Z, w')
        ∧ files w' = <[outfp := c0 ++ serialize vs]> (files w)
        ∧ trace w' = trace w ++ map (λ v, EvWrite outfp (line_of v)) vs
        ∧ tmp_count w' = tmp_count w ∧ poll_count w' = poll_count w
  | None =>
      ∃ k w', for_data_keys outfp example data_keys char_count w
              = (Raised (KeyError k), w')
  end.
Proof.
  revert char_count w c0.
  induction data_keys as [|k ks IH]; intros cc w c0 Hc0; simpl.
  - exists w. rewrite Z.add_0_r, app_nil_r, insert_id by done. by rewrite app_nil_r.
  - unfold getitem. destruct (example !! k) as [v|] eqn:Hk.
    + pose proof (IH (cc + len (v ++ newline))%Z
                     (write outfp (v ++ newline) w).2 (c0 ++ line_of v)) as IH'.
      unfold bind, ret; simpl in *. rewrite Hc0 in *. simpl in *.
      specialize (IH' (lookup_insert_eq _ _ _)).
      destruct (record_fields ks example) as [vs|].
      * destruct IH' as (w' & Hrun & Hf & Ht & Htc & Hpc).
        exists w'. split; [|split; [|split]].
        -- rewrite Hrun. do 2 f_equal. rewrite serialize_cons. unfold line_of.
           rewrite !len_app. lia.
        -- rewrite Hf, insert_insert_eq, serialize_cons. by rewrite <-app_assoc.
        -- rewrite Ht. by rewrite <-app_assoc.
        -- done.
      * destruct IH' as (k' & w' & Hrun). by exists k', w'.
    + exists k, w. reflexivity.
Qed.

(** Neither loop of the sampler runs on fuel. *)
Lemma for_data_keys_fueled example char_count w w' :
  for_data_keys outfp example data_keys char_count w ≠ (OutOfFuel, w').
Proof.
  revert char_count w.
  induction data_keys as [|k ks IH]; intros cc w; simpl; [done|].
  unfold getitem. destruct (example !! k); [|done].
  unfold bind, ret, write. simpl. apply IH.
Qed.

Lemma while_fueled ds char_count w w' :
  while_char_count maxchars outfp data_keys ds char_count w ≠ (OutOfFuel, w').
Proof.
  revert char_count w.
  induction ds as [|example ds IH]; intros cc w; simpl;
    destruct (cc <? maxchars)%Z; try done.
  unfold bind at 1 2. simpl.
  destruct (for_data_keys _ _ _ _ _) as [[cc'| |] w1] eqn:Hfor; [apply IH|done|].
  by apply for_data_keys_fueled in Hfor.
Qed.

(** One equation per way through a turn of the [while] loop. *)
Lemma while_done ds char_count w :
  (maxchars ≤ char_count)%Z →
  while_char_count maxchars outfp data_keys ds char_count w
  = (Returned char_count, w).
Proof.
  intros Hge. destruct ds; simpl;
    by destruct (Z.ltb_spec char_count maxchars); [lia|].
Qed.

Lemma while_stop char_count w :
  (char_count < maxchars)%Z →
  while_char_count maxchars outfp data_keys [] char_count w
  = (Raised StopIteration,
     {| files := files w; trace := trace w ++ [EvNext None];
        tmp_count := tmp_count w; poll_count := poll_count w |}).
Proof.
  intros Hlt. simpl. by destruct (Z.ltb_spec char_count maxchars); [|lia].
Qed.

Lemma while_pull example ds char_count w c0 vs :
  (char_count < maxchars)%Z →
  files w !! outfp = Some c0 →
  record_fields data_keys example = Some vs →
  ∃ w1, while_char_count maxchars outfp data_keys (example :: ds) char_count w
        = while_char_count maxchars outfp data_keys ds
            (char_count + len (serialize vs))%Z w1
    ∧ files w1 = <[outfp := c0 ++ serialize vs]> (files w)
    ∧ trace w1 = trace w ++ sample_events outfp data_keys [example]
    ∧ tmp_count w1 = tmp_count w ∧ poll_count w1 = poll_count w.
Proof.
  intros Hlt Hc0 Hvs. simpl.
  destruct (Z.ltb_spec char_count maxchars); [|lia].
  pose proof (for_data_keys_spec example char_count
                (emit (EvNext (Some example)) w).2 c0 Hc0) as Hfor.
  rewrite Hvs in Hfor. destruct Hfor as (w1 & Hrun & Hf & Ht & Htc & Hpc).
  exists w1. unfold bind at 1 2. simpl in *. rewrite Hrun.
  split; [done|]. split; [done|]. split; [|done].
  rewrite Ht. unfold sample_events. simpl.
  by rewrite Hvs, app_nil_r, <-app_assoc.
Qed.

Lemma while_keyerror example ds char_count w c0 :
  (char_count < maxchars)%Z →
  files w !! outfp = Some c0 →
  record_fields data_keys example = None →
  ∃ k w', while_char_count maxchars outfp data_keys (example :: ds) char_count w
          = (Raised (KeyError k), w').
Proof.
  intros Hlt Hc0 Hvs. simpl.
  destruct (Z.ltb_spec char_count maxchars); [|lia].
  pose proof (for_data_keys_spec example char_count
                (emit (EvNext (Some example)) w).2 c0 Hc0) as Hfor.
  rewrite Hvs in Hfor. destruct Hfor as (k & w' & Hrun).
  exists k, w'. unfold bind at 1 2. simpl in *. by rewrite Hrun.
Qed.

Lemma sample_events_cons example ds :
  sample_events outfp data_keys (example :: ds)
  = sample_events outfp data_keys [example] ++ sample_events outfp data_keys ds.
Proof. unfold sample_events. simpl. by rewrite app_nil_r. Qed.

(** When the loop returns it has pulled some [m] records, written all the
    configured fields of each, and the count was below the budget before
    each of them. *)
Lemma while_returned_inv ds char_count w c0 n w' :
  files w !! outfp = Some c0 →
  while_char_count maxchars outfp data_keys ds char_count w = (Returned n, w') →
  ∃ m vs,
    m ≤ length ds
    ∧ stream_fields data_keys (take m ds) = Some vs
    ∧ n = (char_count + len (serialize vs))%Z
    ∧ (maxchars ≤ n)%Z
    ∧ (∀ j, j < m → ∃ vj, stream_fields data_keys (take j ds) = Some vj
                     ∧ (char_count + len (serialize vj) < maxchars)%Z)
    ∧ files w' = <[outfp := c0 ++ serialize vs]> (files w)
    ∧ trace w' = trace w ++ sample_events outfp data_keys (take m ds)
    ∧ tmp_count w' = tmp_count w ∧ poll_count w' = poll_count w.
Proof.
  revert char_count w c0.
  induction ds as [|example ds IH]; intros cc w c0 Hc0 Hrun.
  - destruct (Z.lt_ge_cases cc maxchars) as [Hlt|Hge].
    { by rewrite while_stop in Hrun. }
    rewrite while_done in Hrun by done. injection Hrun as <- <-.
    exists 0, []. simpl. rewrite Z.add_0_r, !app_nil_r, insert_id by done.
    repeat split; try done. lia.
  - destruct (Z.lt_ge_cases cc maxchars) as [Hlt|Hge].
    + destruct (record_fields data_keys example) as [vs|] eqn:Hvs.
      * destruct (while_pull example ds cc w c0 vs Hlt Hc0 Hvs)
          as (w1 & Heq & Hf & Ht & Htc & Hpc).
        rewrite Heq in Hrun.
        apply (IH _ _ (c0 ++ serialize vs)) in Hrun;
          [|by rewrite Hf, lookup_insert_eq].
        destruct Hrun as (m & vs' & Hm & Hvs' & -> & Hn & Hbelow & Hf' & Ht' & Htc' & Hpc').
        exists (S m), (vs ++ vs'). simpl. rewrite Hvs, Hvs'.
        split; [lia|]. split; [done|]. rewrite serialize_app, len_app.
        split; [lia|]. split; [lia|]. split; [|split; [|split; [|lia]]].
        -- intros [|j] Hj; simpl.
           ++ exists []. split; [done|]. change (len (serialize [])) with 0%Z. lia.
           ++ destruct (Hbelow j) as (vj & Hvj & Hlj); [lia|].
              exists (vs ++ vj). rewrite Hvs, Hvj. split; [done|].
              rewrite serialize_app, len_app. lia.
        -- by rewrite Hf', Hf, insert_insert_eq, <-app_assoc.
        -- rewrite Ht', Ht, (sample_events_cons example (take m ds)).
           by rewrite <-app_assoc.
      * destruct (while_keyerror example ds cc w c0 Hlt Hc0 Hvs) as (k & w2 & Heq).
        by rewrite Heq in Hrun.
    + rewrite while_done in Hrun by done. injection Hrun as <- <-.
      exists 0, []. simpl. rewrite Z.add_0_r, !app_nil_r, insert_id by done.
      repeat split; try done; lia.
Qed.

(** A stream that holds fewer bytes than the budget is pulled to its end,
    written out whole, and the pull after its last record raises. *)
Lemma while_exhausted ds char_count w c0 vs :
  files w !! outfp = Some c0 →
  stream_fields data_keys ds = Some vs →
  (char_count + len (serialize vs) < maxchars)%Z →
  ∃ w', while_char_count maxchars outfp data_keys ds char_count w
        = (Raised StopIteration, w')
    ∧ files w' = <[outfp := c0 ++ serialize vs]> (files w)
    ∧ trace w' = trace w ++ sample_events outfp data_keys ds ++ [EvNext None]
    ∧ tmp_count w' = tmp_count w ∧ poll_count w' = poll_count w.
Proof.
  revert char_count w c0 vs.
  induction ds as [|example ds IH]; intros cc w c0 vs Hc0 Hvs Hlt; simpl in Hvs.
  - injection Hvs as <-. change (len (serialize [])) with 0%Z in Hlt.
    rewrite while_stop by lia.
    eexists. split; [done|]. simpl. by rewrite app_nil_r, insert_id.
  - destruct (record_fields data_keys example) as [vr|] eqn:Hvr; [|done].
    destruct (stream_fields data_keys ds) as [vrest|] eqn:Hvrest; [|done].
    injection Hvs as <-. rewrite serialize_app, len_app in Hlt.
    pose proof (len_nonneg (serialize vr)). pose proof (len_nonneg (serialize vrest)).
    destruct (while_pull example ds cc w c0 vr) as (w1 & Heq & Hf & Ht & Htc & Hpc);
      [lia|done|done|].
    destruct (IH (cc + len (serialize vr))%Z w1 (c0 ++ serialize vr) vrest)
      as (w' & Hrun & Hf' & Ht' & Htc' & Hpc'); [by rewrite Hf, lookup_insert_eq|done|lia|].
    exists w'. rewrite Heq, Hrun. split; [done|].
    split; [by rewrite Hf', Hf, insert_insert_eq, serialize_app, <-app_assoc|].
    split; [|lia].
    rewrite Ht', Ht, (sample_events_cons example ds). by rewrite <-!app_assoc.
Qed.

(** A stream that holds at least the budget makes the loop return. *)
Lemma while_enough ds char_count w c0 vs :
  files w !! outfp = Some c0 →
  stream_fields data_keys ds = Some vs →
  (maxchars ≤ char_count + len (serialize vs))%Z →
  ∃ n w', while_char_count maxchars outfp data_keys ds char_count w
          = (Returned n, w').
Proof.
  revert char_count w c0 vs.
  induction ds as [|example ds IH]; intros cc w c0 vs Hc0 Hvs Hge; simpl in Hvs.
  - injection Hvs as <-. change (len (serialize [])) with 0%Z in Hge.
    rewrite while_done by lia. eauto.
  - destruct (Z.lt_ge_cases cc maxchars) as [Hlt|Hge'];
      [|rewrite while_done by done; eauto].
    destruct (record_fields data_keys example) as [vr|] eqn:Hvr; [|done].
    destruct (stream_fields data_keys ds) as [vrest|] eqn:Hvrest; [|done].
    injection Hvs as <-. rewrite serialize_app, len_app in Hge.
    destruct (while_pull example ds cc w c0 vr) as (w1 & Heq & Hf & _);
      [done..|].
    rewrite Heq. apply (IH _ _ (c0 ++ serialize vr) vrest); [|done|lia].
    by rewrite Hf, lookup_insert_eq.
Qed.

(** The converse of [while_returned_inv]: the loop returns after [m] records
    when the budget is met there and at no earlier record boundary. *)
Lemma while_returns m ds char_count w c0 vs :
  files w !! outfp = Some c0 →
  m ≤ length ds →
  stream_fields data_keys (take m ds) = Some vs →
  (maxchars ≤ char_count + len (serialize vs))%Z →
  (∀ j, j < m → ∃ vj, stream_fields data_keys (take j ds) = Some vj
                 ∧ (char_count + len (serialize vj) < maxchars)%Z) →
  ∃ w', while_char_count maxchars outfp data_keys ds char_count w
        = (Returned (char_count + len (serialize vs))%Z, w')
    ∧ files w' = <[outfp := c0 ++ serialize vs]> (files w)
    ∧ trace w' = trace w ++ sample_events outfp data_keys (take m ds)
    ∧ tmp_count w' = tmp_count w ∧ poll_count w' = poll_count w.
Proof.
  revert ds char_count w c0 vs.
  induction m as [|m IH]; intros ds cc w c0 vs Hc0 Hm Hvs Hge Hbelow.
  - rewrite take_0 in *. injection Hvs as <-.
    change (len (serialize [])) with 0%Z in *. rewrite Z.add_0_r in *.
    rewrite while_done by done. exists w.
    by rewrite !app_nil_r, insert_id.
  - destruct ds as [|example ds]; simpl in Hm; [lia|]. simpl in Hvs.
    destruct (record_fields data_keys example) as [vr|] eqn:Hvr; [|done].
    destruct (stream_fields data_keys (take m ds)) as [vrest|] eqn:Hvrest; [|done].
    injection Hvs as <-. rewrite serialize_app, len_app in *.
    destruct (Hbelow 0) as (v0 & Hv0 & Hlt0); [lia|].
    injection Hv0 as <-. change (len (serialize [])) with 0%Z in Hlt0.
    destruct (while_pull example ds cc w c0 vr) as (w1 & Heq & Hf & Ht & Htc & Hpc);
      [lia|done|done|].
    destruct (IH ds (cc + len (serialize vr))%Z w1 (c0 ++ serialize vr) vrest)
      as (w' & Hrun & Hf' & Ht' & Htc' & Hpc');
      [by rewrite Hf, lookup_insert_eq|lia|done|lia| |].
    { intros j Hj. destruct (Hbelow (S j)) as (vj & Hvj & Hlj); [lia|].
      simpl in Hvj. rewrite Hvr in Hvj.
      destruct (stream_fields data_keys (take j ds)) as [vj'|]; [|done].
      injection Hvj as <-. exists vj'. split; [done|].
      rewrite serialize_app, len_app in Hlj. lia. }
    exists w'. rewrite Heq, Hrun. split; [do 2 f_equal; lia|].
    split; [by rewrite Hf', Hf, insert_insert_eq, <-app_assoc|].
    split; [|lia].
    rewrite Ht', Ht. simpl take. rewrite (sample_events_cons example (take m ds)).
    by rewrite <-app_assoc.
Qed.

End SamplerFacts.

Section Sampler.

Variable env : Env.
Variable dataset : list (gmap string bytes).
Variable maxchars : Z.
Variable data_keys : list string.

Lemma dump_unfold w :
  _dump_chars_to_textfile env dataset maxchars data_keys w
  = match while_char_count maxchars (scratch_name env w) data_keys dataset 0
            (NamedTemporaryFile env "/tmp/ds_chars" w).2 with
    | (Returned n, w') => (Returned (scratch_name env w, n), w')
    | (Raised e, w') => (Raised e, w')
    | (OutOfFuel, w') => (OutOfFuel, w')
    end.
Proof. reflexivity. Qed.

Lemma scratch_is_empty w :
  files (NamedTemporaryFile env "/tmp/ds_chars" w).2 !! scratch_name env w = Some [].
Proof. simpl. apply lookup_insert_eq. Qed.

Lemma dump_returned_inv w name n w' :
  _dump_chars_to_textfile env dataset maxchars data_keys w = (Returned (name, n), w') →
  name = scratch_name env w ∧
  ∃ m vs,
    m ≤ length dataset
    ∧ stream_fields data_keys (take m dataset) = Some vs
    ∧ n = len (serialize vs)
    ∧ (maxchars ≤ n)%Z
    ∧ (∀ j, j < m → ∃ vj, stream_fields data_keys (take j dataset) = Some vj
                     ∧ (len (serialize vj) < maxchars)%Z)
    ∧ files w' = <[name := serialize vs]> (files w)
    ∧ trace w' = trace w ++ EvTempFile "/tmp/ds_chars" name
                          :: sample_events name data_keys (take m dataset)
    ∧ tmp_count w' = S (tmp_count w) ∧ poll_count w' = poll_count w.
Proof.
  rewrite dump_unfold.
  destruct (while_char_count _ _ _ _ _ _) as [[n'| |] w1] eqn:Hrun; [|done..].
  intros [= <- <- <-]. split; [done|].
  apply (while_returned_inv _ _ _ _ _ _ []) in Hrun; [|apply scratch_is_empty].
  destruct Hrun as (m & vs & Hm & Hvs & -> & Hge & Hbelow & Hf & Ht & Htc & Hpc).
  exists m, vs. simpl in *. rewrite Hf, Ht, Htc, Hpc, insert_insert_eq, <-app_assoc.
  done.
Qed.

Lemma dump_returns m w vs :
  m ≤ length dataset →
  stream_fields data_keys (take m dataset) = Some vs →
  (maxchars ≤ len (serialize vs))%Z →
  (∀ j, j < m → ∃ vj, stream_fields data_keys (take j dataset) = Some vj
                 ∧ (len (serialize vj) < maxchars)%Z) →
  ∃ w', _dump_chars_to_textfile env dataset maxchars data_keys w
        = (Returned (scratch_name env w, len (serialize vs)), w')
    ∧ files w' = <[scratch_name env w := serialize vs]> (files w)
    ∧ trace w' = trace w ++ EvTempFile "/tmp/ds_chars" (scratch_name env w)
                   :: sample_events (scratch_name env w) data_keys (take m dataset)
    ∧ tmp_count w' = S (tmp_count w) ∧ poll_count w' = poll_count w.
Proof.
  intros Hm Hvs Hge Hbelow. rewrite dump_unfold.
  destruct (while_returns maxchars (scratch_name env w) data_keys m dataset 0
              (NamedTemporaryFile env "/tmp/ds_chars" w).2 [] vs)
    as (w' & Hrun & Hf & Ht & Htc & Hpc); [apply scratch_is_empty|done..|].
  rewrite Hrun. exists w'. simpl in *.
  by rewrite Hf, Ht, Htc, Hpc, insert_insert_eq, <-app_assoc.
Qed.

Lemma dump_enough w vs :
  stream_fields data_keys dataset = Some vs →
  (maxchars ≤ len (serialize vs))%Z →
  ∃ n w', _dump_chars_to_textfile env dataset maxchars data_keys w
          = (Returned (scratch_name env w, n), w').
Proof.
  intros Hvs Hge. rewrite dump_unfold.
  destruct (while_enough maxchars (scratch_name env w) data_keys dataset 0
              (NamedTemporaryFile env "/tmp/ds_chars" w).2 [] vs)
    as (n & w' & Hrun); [apply scratch_is_empty|done..|].
  rewrite Hrun. eauto.
Qed.

Lemma dump_exhausted w vs :
  stream_fields data_keys dataset = Some vs →
  (len (serialize vs) < maxchars)%Z →
  ∃ w', _dump_chars_to_textfile env dataset maxchars data_keys w
        = (Raised StopIteration, w')
    ∧ files w' = <[scratch_name env w := serialize vs]> (files w)
    ∧ trace w' = trace w ++ EvTempFile "/tmp/ds_chars" (scratch_name env w)
                   :: sample_events (scratch_name env w) data_keys dataset
                   ++ [EvNext None]
    ∧ tmp_count w' = S (tmp_count w) ∧ poll_count w' = poll_count w.
Proof.
  intros Hvs Hlt. rewrite dump_unfold.
  destruct (while_exhausted maxchars (scratch_name env w) data_keys dataset 0
              (NamedTemporaryFile env "/tmp/ds_chars" w).2 [] vs)
    as (w' & Hrun & Hf & Ht & Htc & Hpc); [apply scratch_is_empty|done..|].
  rewrite Hrun. exists w'. simpl in *.
  by rewrite Hf, Ht, Htc, Hpc, insert_insert_eq, <-app_assoc.
Qed.

End Sampler.

Section Waiting.

Variable env : Env.
Variable path : string.

Lemma wait_found fuel w :
  path_exists env (poll_count w) path = true →
  while_not_exists env (S fuel) path w
  = (Returned tt,
     {| files := files w; trace := trace w ++ [EvExists path true];
        tmp_count := tmp_count w; poll_count := S (poll_count w) |}).
Proof. intros H. simpl. unfold bind, gfile_exists. by rewrite H. Qed.

Lemma wait_again fuel w :
  path_exists env (poll_count w) path = false →
  while_not_exists env (S fuel) path w
  = while_not_exists env fuel path
      {| files := files w; trace := trace w ++ [EvExists path false; EvSleep 1];
         tmp_count := tmp_count w; poll_count := S (poll_count w) |}.
Proof.
  intros H. simpl. unfold bind at 1, gfile_exists. rewrite H. simpl.
  unfold bind, time_sleep, emit. simpl. by rewrite <-app_assoc.
Qed.

Lemma missed_polls_S k :
  missed_polls path (S k) = [EvExists path false; EvSleep 1] ++ missed_polls path k.
Proof. reflexivity. Qed.


(** Conversely, a loop that returned did so on a poll answered [true]. *)
Lemma wait_returned_inv fuel w r w' :
  while_not_exists env fuel path w = (Returned r, w') →
  ∃ k, k < fuel
    ∧ (∀ i, i < k → path_exists env (poll_count w + i) path = false)
    ∧ path_exists env (poll_count w + k) path = true
    ∧ w' = {| files := files w;
              trace := trace w ++ missed_polls path k ++ [EvExists path true];
              tmp_count := tmp_count w; poll_count := poll_count w + S k |}.
Proof.
  revert w. induction fuel as [|fuel IH]; intros w Hrun; [done|].
  destruct (path_exists env (poll_count w) path) eqn:Hnow.
  - rewrite wait_found in Hrun by done. injection Hrun as _ <-.
    exists 0. rewrite Nat.add_0_r, Nat.add_1_r.
    split; [lia|]. split; [intros; lia|]. done.
  - rewrite wait_again in Hrun by done. apply IH in Hrun.
    destruct Hrun as (k & Hk & Hmiss & Hhit & ->).
    cbn [files trace tmp_count poll_count] in *.
    exists (S k). split; [lia|]. split; [|split].
    + intros [|i] Hi; [by rewrite Nat.add_0_r|].
      replace (poll_count w + S i) with (S (poll_count w) + i) by lia.
      apply Hmiss. lia.
    + by replace (poll_count w + S k) with (S (poll_count w) + k) by lia.
    + f_equal; [|lia]. rewrite missed_polls_S. by rewrite <-!app_assoc.
Qed.


Lemma wait_not_raised fuel w e w' :
  while_not_exists env fuel path w ≠ (Raised e, w').
Proof.
  revert w. induction fuel as [|fuel IH]; intros w; [done|].
  destruct (path_exists env (poll_count w) path) eqn:Hnow.
  - by rewrite wait_found.
  - rewrite wait_again by done. apply IH.
Qed.

End Waiting.

Section Coordinator.

Variable env : Env.
Variable float : Type.
Variable str_float : float → string.
Variable dataset : list (gmap string bytes).
Variables vocab_size maxchars : Z.
Variables assets_path model_path model_type : string.
Variable character_coverage : float.
Variable data_keys : list string.

(** A failure of the sampler is the failure of the whole call: nothing is
    done after it. *)
Lemma train_sampler_raised fuel w e w' :
  _dump_chars_to_textfile env dataset maxchars data_keys w = (Raised e, w') →
  _train_sentencepiece env float str_float fuel dataset vocab_size maxchars
    assets_path model_path model_type character_coverage data_keys w
  = (Raised e, w').
Proof.
  intros Hdump. unfold _train_sentencepiece.
  destruct (startswith model_path "gs://"); by rewrite (bind_raised _ _ _ _ _ Hdump).
Qed.

(** What follows a successful sampling, whatever the process. *)
Lemma train_unfold fuel w fname n w1 :
  _dump_chars_to_textfile env dataset maxchars data_keys w = (Returned (fname, n), w1) →
  let model_fp := "/tmp/sp_tmp" +:+ tmp_suffix env (tmp_count w1) in
  let argstr := train_args fname (pretty vocab_size) (str_float character_coverage)
                  model_fp model_type in
  let abs_model_path := final_path env model_path in
  let w2 := trained w1 model_fp argstr in
  _train_sentencepiece env float str_float fuel dataset vocab_size maxchars
    assets_path model_path model_type character_coverage data_keys w
  = if trainer_ok env argstr then
      if (process_index env =? 0)%Z then
        (Returned abs_model_path,
         add_events w2 (publish_events env assets_path model_path model_fp))
      else
        match while_not_exists env fuel abs_model_path w2 with
        | (Returned _, w3) => (Returned abs_model_path, add_events w3 [EvSleep 1])
        | (Raised e, w3) => (Raised e, w3)
        | (OutOfFuel, w3) => (OutOfFuel, w3)
        end
    else (Raised (TrainerError argstr), w2).
Proof.
  intros Hdump model_fp argstr abs_model_path w2.
  assert (Hw2 :
    {| files := <[model_fp := []]> (files w1);
       trace := (trace w1 ++ [EvTempFile "/tmp/sp_tmp" model_fp]) ++ [EvTrain argstr];
       tmp_count := S (tmp_count w1); poll_count := poll_count w1 |} = w2).
  { unfold w2, trained. by rewrite <-app_assoc. }
  unfold _train_sentencepiece, abs_model_path, final_path, publish_events,
    final_path, assets_dir.
  destruct (startswith model_path "gs://") eqn:Hgs;
    rewrite (bind_returned _ _ _ _ _ Hdump);
    unfold bind, NamedTemporaryFile, SentencePieceTrainer_Train, bind, emit,
      gfile_makedirs, gfile_copy, gfile_rename, logging_info, time_sleep, emit,
      ret, raise;
    cbn [files trace tmp_count poll_count negb];
    change (String.concat " " _) with argstr;
    change ("/tmp/sp_tmp" +:+ tmp_suffix env (tmp_count w1)) with model_fp;
    rewrite Hw2.
  all: destruct (trainer_ok env argstr); [|done].
  all: destruct (process_index env =? 0)%Z.
  all: try (unfold add_events; by rewrite <-!app_assoc).
  all: by destruct (while_not_exists _ _ _ _) as [[[]| |] w3].
Qed.

Lemma dump_not_out_of_fuel w w' :
  _dump_chars_to_textfile env dataset maxchars data_keys w ≠ (OutOfFuel, w').
Proof.
  rewrite dump_unfold.
  destruct (while_char_count _ _ _ _ _ _) as [[n| |] w1] eqn:Hrun; try done.
  by apply while_fueled in Hrun.
Qed.

End Coordinator.

(** ** The sampler: scenarios and general statements *)

Lemma pulls_sample_events outfp data_keys ds :
  pulls (sample_events outfp data_keys ds) = map Some ds.
Proof.
  induction ds as [|example ds IH]; [done|].
  rewrite sample_events_cons. unfold pulls in *. rewrite omap_app, IH.
  unfold sample_events. simpl. rewrite app_nil_r. f_equal.
  by induction (default [] (record_fields data_keys example)).
Qed.

Lemma writes_to_sample_events outfp data_keys ds vs :
  stream_fields data_keys ds = Some vs →
  writes_to outfp (sample_events outfp data_keys ds) = map line_of vs.
Proof.
  revert vs. induction ds as [|example ds IH]; intros vs Hvs; simpl in Hvs.
  { by injection Hvs as <-. }
  destruct (record_fields data_keys example) as [vr|] eqn:Hvr; [|done].
  destruct (stream_fields data_keys ds) as [vrest|]; [|done].
  injection Hvs as <-. rewrite sample_events_cons. unfold writes_to in *.
  rewrite omap_app, (IH vrest), map_app by done. f_equal.
  unfold sample_events. simpl. rewrite app_nil_r, Hvr. simpl.
  clear. induction vr as [|v vr IH]; [done|]. simpl.
  by rewrite decide_True, IH.
Qed.

Lemma sample_events_working outfp data_keys ds :
  Forall working_call (sample_events outfp data_keys ds).
Proof.
  induction ds as [|example ds IH]; [constructor|].
  rewrite sample_events_cons. apply Forall_app. split; [|done].
  unfold sample_events. simpl. rewrite app_nil_r. constructor; [done|].
  by induction (default [] (record_fields data_keys example)); constructor.
Qed.

(** C4.  Scenario A: on the stream [ab], [cd], [ef] with the single key
    [text] and a budget of 4 the sampler pulls two records, leaves the six
    bytes [ab\ncd\n] in the scratch file and returns the count 6. *)
Theorem scenario_A env w :
  ∃ w', _dump_chars_to_textfile env records_A 4 ["text"] w
        = (Returned (scratch_name env w, 6%Z), w')
    ∧ files w' !! scratch_name env w = Some (b "ab" ++ newline ++ b "cd" ++ newline)
    ∧ trace w' = trace w ++
        [ EvTempFile "/tmp/ds_chars" (scratch_name env w);
          EvNext (Some {[ "text" := b "ab" ]});
          EvWrite (scratch_name env w) (b "ab" ++ newline);
          EvNext (Some {[ "text" := b "cd" ]});
          EvWrite (scratch_name env w) (b "cd" ++ newline) ].
Proof.
  destruct (dump_returns env records_A 4 ["text"] 2 w [b "ab"; b "cd"])
    as (w' & Hrun & Hf & Ht & _).
  - simpl. lia.
  - reflexivity.
  - by vm_compute.
  - intros [|[|j]] Hj; [exists []|exists [b "ab"]|lia]; by vm_compute.
  - exists w'. split; [exact Hrun|]. split.
    + rewrite Hf. apply lookup_insert_eq.
    + rewrite Ht. reflexivity.
Qed.

(** C10.  With a budget of zero or less the loop is not entered: no record
    is pulled, nothing is written, and the call returns the name of an empty
    scratch file with the count 0. *)
Theorem nonpositive_budget env dataset maxchars data_keys w :
  (maxchars ≤ 0)%Z →
  ∃ w', _dump_chars_to_textfile env dataset maxchars data_keys w
        = (Returned (scratch_name env w, 0%Z), w')
    ∧ trace w' = trace w ++ [EvTempFile "/tmp/ds_chars" (scratch_name env w)]
    ∧ files w' !! scratch_name env w = Some [].
Proof.
  intros Hle. rewrite dump_unfold, while_done by done.
  eexists. split; [done|]. split; [done|]. apply scratch_is_empty.
Qed.

Lemma nonpositive_budget_witness :
  (-5 ≤ 0)%Z ∧
  ∃ w', _dump_chars_to_textfile (test_env 0 0) records_A (-5) ["text"] fresh_world
        = (Returned ("/tmp/ds_chars0", 0%Z), w')
    ∧ trace w' = [EvTempFile "/tmp/ds_chars" "/tmp/ds_chars0"]
    ∧ files w' !! "/tmp/ds_chars0" = Some [].
Proof.
  split; [lia|].
  apply (nonpositive_budget (test_env 0 0) records_A (-5) ["text"] fresh_world).
  lia.
Defined.

(** C9.  When the sampler returns, the count it returns is the number of
    bytes in the scratch file, which is the sum, over the fields written, of
    the length of the value plus one for its newline. *)
Theorem byte_count_exact env dataset maxchars data_keys w name n w' :
  _dump_chars_to_textfile env dataset maxchars data_keys w = (Returned (name, n), w') →
  ∃ evs vs,
    trace w' = trace w ++ evs
    ∧ writes_to name evs = map line_of vs
    ∧ files w' !! name = Some (concat (writes_to name evs))
    ∧ n = len (concat (writes_to name evs))
    ∧ n = foldr (λ v acc, (len v + 1 + acc)%Z) 0%Z vs.
Proof.
  intros Hrun. apply dump_returned_inv in Hrun.
  destruct Hrun as (-> & m & vs & _ & Hvs & -> & _ & _ & Hf & Ht & _).
  eexists _, vs. split; [exact Ht|].
  assert (Hw : writes_to (scratch_name env w)
                 (EvTempFile "/tmp/ds_chars" (scratch_name env w)
                  :: sample_events (scratch_name env w) data_keys (take m dataset))
               = map line_of vs).
  { unfold writes_to. simpl. by apply writes_to_sample_events. }
  rewrite Hw. fold (serialize vs). split; [done|].
  split; [rewrite Hf; apply lookup_insert_eq|]. split; [done|]. apply len_serialize.
Qed.

Lemma byte_count_exact_witness :
  ∃ w', _dump_chars_to_textfile (test_env 0 0) records_A 4 ["text"] fresh_world
        = (Returned ("/tmp/ds_chars0", 6%Z), w') ∧
  ∃ evs vs,
    trace w' = trace fresh_world ++ evs
    ∧ writes_to "/tmp/ds_chars0" evs = map line_of vs
    ∧ files w' !! "/tmp/ds_chars0" = Some (concat (writes_to "/tmp/ds_chars0" evs))
    ∧ 6%Z = len (concat (writes_to "/tmp/ds_chars0" evs))
    ∧ 6%Z = foldr (λ v acc, (len v + 1 + acc)%Z) 0%Z vs.
Proof.
  eexists. split; [vm_compute; reflexivity|].
  apply (byte_count_exact (test_env 0 0) records_A 4 ["text"] fresh_world).
  vm_compute. reflexivity.
Defined.



Lemma stream_fields_snoc data_keys ds example :
  stream_fields data_keys (ds ++ [example])
  = match stream_fields data_keys ds, record_fields data_keys example with
    | Some vs, Some vr => Some (vs ++ vr)
    | _, _ => None
    end.
Proof.
  induction ds as [|r ds IH]; simpl.
  - destruct (record_fields data_keys example); [|done]. by rewrite app_nil_r.
  - rewrite IH. destruct (record_fields data_keys r); [|done].
    destruct (stream_fields data_keys ds); [|done].
    destruct (record_fields data_keys example); [|done]. by rewrite app_assoc.
Qed.

(** C2, as the code has it.  The budget is looked at between records only.
    For a positive budget, a sampler that returns has pulled some [m ≥ 1]
    records, the first [m] of the stream; the count was below the budget
    before each of them and is at or above it after the last; and every
    configured field of each of them, the last one included, is in the
    scratch file. *)
Theorem budget_checked_between_records env dataset maxchars data_keys w name n w' :
  (0 < maxchars)%Z →
  _dump_chars_to_textfile env dataset maxchars data_keys w = (Returned (name, n), w') →
  ∃ m vs evs,
    1 ≤ m ≤ length dataset
    ∧ trace w' = trace w ++ evs
    ∧ pulls evs = map Some (take m dataset)
    ∧ stream_fields data_keys (take m dataset) = Some vs
    ∧ writes_to name evs = map line_of vs
    ∧ files w' !! name = Some (serialize vs)
    ∧ (∀ j, j < m → ∃ vj, stream_fields data_keys (take j dataset) = Some vj
                     ∧ (len (serialize vj) < maxchars)%Z)
    ∧ (maxchars ≤ len (serialize vs))%Z.
Proof.
  intros Hpos Hrun. apply dump_returned_inv in Hrun.
  destruct Hrun as (-> & m & vs & Hm & Hvs & -> & Hge & Hbelow & Hf & Ht & _).
  exists m, vs. eexists. split; [|split; [exact Ht|]].
  - split; [|done]. destruct m; [|lia].
    rewrite take_0 in Hvs. injection Hvs as <-.
    change (len (serialize [])) with 0%Z in Hge. lia.
  - split; [unfold pulls; simpl; apply pulls_sample_events|].
    split; [done|].
    split; [unfold writes_to; simpl; by apply writes_to_sample_events|].
    split; [rewrite Hf; apply lookup_insert_eq|]. done.
Qed.

Lemma budget_checked_between_records_witness :
  (0 < 1)%Z ∧
  ∃ w', _dump_chars_to_textfile (test_env 0 0) [record_xy] 1 ["a"; "b"] fresh_world
        = (Returned ("/tmp/ds_chars0", 4%Z), w') ∧
  ∃ m vs evs,
    1 ≤ m ≤ length [record_xy]
    ∧ trace w' = trace fresh_world ++ evs
    ∧ pulls evs = map Some (take m [record_xy])
    ∧ stream_fields ["a"; "b"] (take m [record_xy]) = Some vs
    ∧ writes_to "/tmp/ds_chars0" evs = map line_of vs
    ∧ files w' !! "/tmp/ds_chars0" = Some (serialize vs)
    ∧ (∀ j, j < m → ∃ vj, stream_fields ["a"; "b"] (take j [record_xy]) = Some vj
                     ∧ (len (serialize vj) < 1)%Z)
    ∧ (1 ≤ len (serialize vs))%Z.
Proof.
  split; [lia|]. eexists. split; [vm_compute; reflexivity|].
  apply (budget_checked_between_records (test_env 0 0) [record_xy] 1 ["a"; "b"]
           fresh_world "/tmp/ds_chars0" 4).
  - lia.
  - vm_compute. reflexivity.
Defined.

(** C2 as the specification words it fails on a record with two configured
    fields and a budget of 1: the first field brings the count to 2, which is
    past the budget, and the second field is written all the same. *)
Lemma remaining_fields_are_written :
  let run := _dump_chars_to_textfile (test_env 0 0) [record_xy] 1 ["a"; "b"]
               fresh_world in
  run.1 = Returned ("/tmp/ds_chars0", 4%Z)
  ∧ (1 ≤ len (line_of (b "x")))%Z
  ∧ fields_within_budget 1 [b "x"; b "y"] 0 = [b "x"]
  ∧ writes_to "/tmp/ds_chars0" (trace run.2) = [line_of (b "x"); line_of (b "y")]
  ∧ files run.2 !! "/tmp/ds_chars0" = Some (serialize [b "x"; b "y"])
  ∧ files run.2 !! "/tmp/ds_chars0"
    ≠ Some (serialize (fields_within_budget 1 [b "x"; b "y"] 0)).
Proof. vm_compute. repeat split; try done. Qed.

(** A sampler that returns on a positive budget has pulled a last record:
    the count was below the budget before it and is the count returned after
    it. *)
Lemma crossing_record env dataset maxchars data_keys w name n w' :
  (0 < maxchars)%Z →
  _dump_chars_to_textfile env dataset maxchars data_keys w = (Returned (name, n), w') →
  ∃ example vj vr,
    example ∈ dataset
    ∧ record_fields data_keys example = Some vr
    ∧ (len (serialize vj) < maxchars)%Z
    ∧ (maxchars ≤ n)%Z
    ∧ n = (len (serialize vj) + len (serialize vr))%Z.
Proof.
  intros Hpos Hrun. apply dump_returned_inv in Hrun.
  destruct Hrun as (_ & m & vm & Hm & Hvm & -> & Hn & Hbelow & _).
  destruct m as [|j].
  { rewrite take_0 in Hvm. injection Hvm as <-.
    change (len (serialize [])) with 0%Z in Hn. lia. }
  destruct (Hbelow j) as (vj & Hvj & Hlt); [lia|].
  destruct (lookup_lt_is_Some_2 dataset j) as [example Hex]; [lia|].
  rewrite (take_S_r _ _ _ Hex), stream_fields_snoc, Hvj in Hvm.
  destruct (record_fields data_keys example) as [vr|] eqn:Hvr; [|done].
  injection Hvm as <-. exists example, vj, vr.
  rewrite serialize_app, len_app in *.
  split; [by eapply list_elem_of_lookup_2|]. repeat split; [done|lia..].
Qed.

(** C3, as the code has it.  For a positive budget and a stream that holds
    at least the budget, the sampler returns a count between the budget and
    the budget plus [R], where [R] bounds the bytes one record contributes:
    all its configured fields, each with its newline. *)
Theorem budget_bounds env dataset maxchars data_keys w vs R :
  (0 < maxchars)%Z →
  stream_fields data_keys dataset = Some vs →
  (maxchars ≤ len (serialize vs))%Z →
  (∀ example vr, example ∈ dataset → record_fields data_keys example = Some vr →
                 (len (serialize vr) ≤ R)%Z) →
  ∃ n w', _dump_chars_to_textfile env dataset maxchars data_keys w
          = (Returned (scratch_name env w, n), w')
    ∧ (maxchars ≤ n < maxchars + R)%Z.
Proof.
  intros Hpos Hvs Hge HR.
  destruct (dump_enough env dataset maxchars data_keys w vs Hvs Hge) as (n & w' & Hrun).
  exists n, w'. split; [done|].
  destruct (crossing_record _ _ _ _ _ _ _ _ Hpos Hrun)
    as (example & vj & vr & Hin & Hvr & Hlt & Hn & ->).
  specialize (HR example vr Hin Hvr). lia.
Qed.

Lemma budget_bounds_witness :
  (0 < 4)%Z ∧
  stream_fields ["text"] records_A = Some [b "ab"; b "cd"; b "ef"] ∧
  (4 ≤ len (serialize [b "ab"; b "cd"; b "ef"]))%Z ∧
  ∃ n w', _dump_chars_to_textfile (test_env 0 0) records_A 4 ["text"] fresh_world
          = (Returned ("/tmp/ds_chars0", n), w')
    ∧ (4 ≤ n < 4 + 3)%Z.
Proof.
  split; [lia|]. split; [reflexivity|]. split; [vm_compute; discriminate|].
  apply (budget_bounds (test_env 0 0) records_A 4 ["text"] fresh_world
           [b "ab"; b "cd"; b "ef"] 3).
  - lia.
  - reflexivity.
  - vm_compute. discriminate.
  - intros example vr Hin Hvr. unfold records_A in Hin.
    repeat (apply elem_of_cons in Hin as [->|Hin]);
      [| | |by apply elem_of_nil in Hin];
      vm_compute in Hvr; injection Hvr as <-; vm_compute; discriminate.
Defined.

(** With a single configured key the overshoot is below the length of one
    field write, as the specification has it. *)
Corollary overshoot_single_key env dataset maxchars k w vs L :
  (0 < maxchars)%Z →
  stream_fields [k] dataset = Some vs →
  (maxchars ≤ len (serialize vs))%Z →
  (∀ example v, example ∈ dataset → example !! k = Some v →
                (len (line_of v) ≤ L)%Z) →
  ∃ n w', _dump_chars_to_textfile env dataset maxchars [k] w
          = (Returned (scratch_name env w, n), w')
    ∧ (maxchars ≤ n < maxchars + L)%Z.
Proof.
  intros Hpos Hvs Hge HL.
  destruct (dump_enough env dataset maxchars [k] w vs Hvs Hge) as (n & w' & Hrun).
  exists n, w'. split; [done|].
  destruct (crossing_record _ _ _ _ _ _ _ _ Hpos Hrun)
    as (example & vj & vr & Hin & Hvr & Hlt & Hn & ->).
  simpl in Hvr. destruct (example !! k) as [v|] eqn:Hk; [|done].
  injection Hvr as <-. specialize (HL example v Hin Hk).
  assert (Hone : serialize [v] = line_of v).
  { unfold serialize. simpl. apply app_nil_r. }
  rewrite Hone in *. lia.
Qed.

(** C3 as the specification words it fails on the same input: every field
    write is two bytes long, the budget is 1, and the count returned is 4. *)
Lemma overshoot_exceeds_one_field :
  let run := _dump_chars_to_textfile (test_env 0 0) [record_xy] 1 ["a"; "b"]
               fresh_world in
  (0 < 1)%Z
  ∧ stream_fields ["a"; "b"] [record_xy] = Some [b "x"; b "y"]
  ∧ (1 ≤ len (serialize [b "x"; b "y"]))%Z
  ∧ Forall (λ line, len line = 2%Z) (writes_to "/tmp/ds_chars0" (trace run.2))
  ∧ run.1 = Returned ("/tmp/ds_chars0", 4%Z)
  ∧ ¬ (1 ≤ 4 < 1 + 2)%Z.
Proof.
  cbv zeta. split; [lia|]. split; [reflexivity|].
  split; [vm_compute; discriminate|].
  split; [vm_compute; repeat constructor|].
  split; [vm_compute; reflexivity|lia].
Qed.

(** ** Paths and traces *)

Ltac absent_from_list H :=
  repeat (apply elem_of_cons in H as [?|H]; [done|]);
  by apply elem_of_nil in H.







(** ** The coordinator: what each rank does *)

Section Roles.

Variable env : Env.
Variable float : Type.
Variable str_float : float → string.
Variable dataset : list (gmap string bytes).
Variables vocab_size maxchars : Z.
Variables assets_path model_path model_type : string.
Variable character_coverage : float.
Variable data_keys : list string.

(** Every call that gets past the sampler creates the second temporary
    file and calls the trainer, on any rank. *)
Lemma run_after_sampling fuel w fname n :
  (_dump_chars_to_textfile env dataset maxchars data_keys w).1 = Returned (fname, n) →
  let argstr := train_args (scratch_name env w) (pretty vocab_size)
                  (str_float character_coverage) (sp_tmp_name env w) model_type in
  let abs_model_path := final_path env model_path in
  fname = scratch_name env w ∧
  ∃ w2 m,
    m ≤ length dataset
    ∧ trace w2 = trace w ++ work_events env data_keys (take m dataset) argstr w
    ∧ poll_count w2 = poll_count w
    ∧ _train_sentencepiece env float str_float fuel dataset vocab_size maxchars
        assets_path model_path model_type character_coverage data_keys w
      = if trainer_ok env argstr then
          if (process_index env =? 0)%Z then
            (Returned abs_model_path,
             add_events w2 (publish_events env assets_path model_path
                              (sp_tmp_name env w)))
          else
            match while_not_exists env fuel abs_model_path w2 with
            | (Returned _, w3) => (Returned abs_model_path, add_events w3 [EvSleep 1])
            | (Raised e, w3) => (Raised e, w3)
            | (OutOfFuel, w3) => (OutOfFuel, w3)
            end
        else (Raised (TrainerError argstr), w2).
Proof.
  intros Hfst argstr abs_model_path.
  destruct (_dump_chars_to_textfile env dataset maxchars data_keys w)
    as [r w1] eqn:Hdump.
  simpl in Hfst. subst r.
  destruct (dump_returned_inv _ _ _ _ _ _ _ _ Hdump)
    as (-> & m & vs & Hm & _ & _ & _ & _ & _ & Ht & Htc & Hpc).
  split; [done|].
  pose proof (train_unfold env float str_float dataset vocab_size maxchars
                assets_path model_path model_type character_coverage data_keys
                fuel w _ _ _ Hdump) as Hrun.
  cbv zeta in Hrun. rewrite Htc in Hrun.
  fold (sp_tmp_name env w) in Hrun. fold argstr in Hrun.
  exists (trained w1 (sp_tmp_name env w) argstr), m.
  split; [done|]. split; [|split; [done|exact Hrun]].
  unfold trained, work_events. simpl. rewrite Ht. by rewrite <-!app_assoc.
Qed.

Lemma work_events_working pulled argstr w :
  Forall working_call (work_events env data_keys pulled argstr w).
Proof.
  unfold work_events. constructor; [done|]. apply Forall_app.
  split; [apply sample_events_working|]. by repeat constructor.
Qed.

(** C7.  On process 0 the assets directory is made exactly when the model
    path is local: for a path that does not start with [gs://] the call to
    [makedirs] comes right before the copy and the rename, after nothing but
    sampling and training calls; for a path that starts with [gs://] no call
    to [makedirs] is made at all. *)
Theorem makedirs_only_for_local_paths fuel w fname n :
  process_index env = 0%Z →
  (_dump_chars_to_textfile env dataset maxchars data_keys w).1 = Returned (fname, n) →
  trainer_ok env (train_args (scratch_name env w) (pretty vocab_size)
                    (str_float character_coverage) (sp_tmp_name env w) model_type)
  = true →
  let abs_model_path := final_path env model_path in
  let model_fp := sp_tmp_name env w in
  ∃ w' evs,
    _train_sentencepiece env float str_float fuel dataset vocab_size maxchars
      assets_path model_path model_type character_coverage data_keys w
    = (Returned abs_model_path, w')
    ∧ trace w' = trace w ++ evs
    ∧ (startswith model_path "gs://" = false →
       ∃ work, Forall working_call work
         ∧ evs = work ++
             [ EvMakedirs (abspath env (expanduser env assets_path));
               EvCopy (model_fp +:+ ".model") (abs_model_path +:+ ".rntmp") true;
               EvRename (abs_model_path +:+ ".rntmp") abs_model_path true;
               EvLogInfo ("copied " +:+ (model_fp +:+ ".model") +:+ " to "
                          +:+ abs_model_path) ])
    ∧ (startswith model_path "gs://" = true → ∀ p, EvMakedirs p ∉ evs).
Proof.
  intros Hrank Hdump Hok abs_model_path model_fp.
  destruct (run_after_sampling fuel w fname n Hdump) as (_ & w2 & m & _ & Ht & _ & Hrun).
  rewrite Hok, Hrank in Hrun. simpl in Hrun.
  eexists _, _. split; [exact Hrun|]. split.
  { simpl. rewrite Ht, <-app_assoc. reflexivity. }
  unfold publish_events. split; intros Hgs; rewrite Hgs.
  - eexists. split; [apply work_events_working|]. reflexivity.
  - intros p [Hin|Hin]%elem_of_app.
    + apply (proj1 (Forall_forall _ _) (work_events_working _ _ _)) in Hin. done.
    + simpl in Hin. absent_from_list Hin.
Qed.


(** C1, as the code has it.  The rank is looked at after the work: every call
    that returns, on any rank, has run the sampler to its end and called the
    trainer with success.  What follows depends on the rank: process 0 makes
    the publishing calls, any other process only polls the final path and
    sleeps. *)
Theorem every_rank_samples_and_trains fuel w r w' :
  _train_sentencepiece env float str_float fuel dataset vocab_size maxchars
    assets_path model_path model_type character_coverage data_keys w
  = (Returned r, w') →
  let abs_model_path := final_path env model_path in
  let argstr := train_args (scratch_name env w) (pretty vocab_size)
                  (str_float character_coverage) (sp_tmp_name env w) model_type in
  ∃ n m rest,
    (_dump_chars_to_textfile env dataset maxchars data_keys w).1
    = Returned (scratch_name env w, n)
    ∧ trainer_ok env argstr = true
    ∧ trace w' = trace w ++ work_events env data_keys (take m dataset) argstr w
                   ++ rest
    ∧ ((process_index env = 0%Z
        ∧ rest = publish_events env assets_path model_path (sp_tmp_name env w))
       ∨ (process_index env ≠ 0%Z
          ∧ ∃ k, rest = missed_polls abs_model_path k
                        ++ [EvExists abs_model_path true; EvSleep 1])).
Proof.
  intros Hreturned abs_model_path argstr.
  destruct (_dump_chars_to_textfile env dataset maxchars data_keys w)
    as [[[fname n]|e|] w1] eqn:Hdump.
  - assert (Hfst : (_dump_chars_to_textfile env dataset maxchars data_keys w).1
                   = Returned (fname, n)) by by rewrite Hdump.
    destruct (run_after_sampling fuel w fname n Hfst)
      as (-> & w2 & m & _ & Ht & _ & Hrun).
    fold argstr abs_model_path in Hrun, Ht. rewrite Hreturned in Hrun.
    destruct (trainer_ok env argstr); [|done].
    exists n, m. destruct (Z.eqb_spec (process_index env) 0) as [Hrank|Hrank].
    + injection Hrun as -> ->. eexists. split; [done|]. split; [done|].
      split; [|by left]. simpl. by rewrite Ht, <-app_assoc.
    + destruct (while_not_exists env fuel abs_model_path w2)
        as [[[]| |] w3] eqn:Hwait; [|done..].
      injection Hrun as -> ->.
      apply wait_returned_inv in Hwait as (k & _ & _ & _ & ->).
      exists (missed_polls abs_model_path k
              ++ [EvExists abs_model_path true; EvSleep 1]).
      split; [done|]. split; [done|]. split; [|right; eauto].
      unfold add_events. cbn [trace]. by rewrite Ht, <-!app_assoc.
  - by rewrite (train_sampler_raised _ _ _ _ _ _ _ _ _ _ _ _ _ _ _ Hdump)
      in Hreturned.
  - by apply dump_not_out_of_fuel in Hdump.
Qed.


End Roles.

(** ** The coordinator on concrete runs *)

(** Process 0, scenario A, a local model path. *)
Lemma makedirs_only_for_local_paths_witness :
  process_index (test_env 0 0) = 0%Z ∧
  ∃ w' evs,
    _train_sentencepiece (test_env 0 0) string id 0 records_A 100 4
      "assets" "assets/tokenizer" "unigram" "1.0" ["text"] fresh_world
    = (Returned "/work/assets/tokenizer", w')
    ∧ trace w' = trace fresh_world ++ evs
    ∧ (startswith "assets/tokenizer" "gs://" = false →
       ∃ work, Forall working_call work
         ∧ evs = work ++
             [ EvMakedirs "/work/assets";
               EvCopy "/tmp/sp_tmp1.model" "/work/assets/tokenizer.rntmp" true;
               EvRename "/work/assets/tokenizer.rntmp" "/work/assets/tokenizer" true;
               EvLogInfo "copied /tmp/sp_tmp1.model to /work/assets/tokenizer" ])
    ∧ (startswith "assets/tokenizer" "gs://" = true → ∀ p, EvMakedirs p ∉ evs).
Proof.
  split; [reflexivity|].
  apply (makedirs_only_for_local_paths (test_env 0 0) string id records_A 100 4
           "assets" "assets/tokenizer" "unigram" "1.0" ["text"] 0 fresh_world
           "/tmp/ds_chars0" 6).
  - reflexivity.
  - vm_compute. reflexivity.
  - reflexivity.
Defined.


(** Process 1, scenario A; the final path becomes visible at the third
    poll. *)
Lemma every_rank_samples_and_trains_witness :
  ∃ w',
    _train_sentencepiece (test_env 1 2) string id 3 records_A 100 4
      "assets" "assets/tokenizer" "unigram" "1.0" ["text"] fresh_world
    = (Returned "/work/assets/tokenizer", w') ∧
  ∃ n m rest,
    (_dump_chars_to_textfile (test_env 1 2) records_A 4 ["text"] fresh_world).1
    = Returned ("/tmp/ds_chars0", n)
    ∧ trainer_ok (test_env 1 2)
        "--input=/tmp/ds_chars0 --vocab_size=100 --character_coverage=1.0 --model_prefix=/tmp/sp_tmp1 --model_type=unigram"
      = true
    ∧ trace w' = trace fresh_world
        ++ work_events (test_env 1 2) ["text"] (take m records_A)
             "--input=/tmp/ds_chars0 --vocab_size=100 --character_coverage=1.0 --model_prefix=/tmp/sp_tmp1 --model_type=unigram"
             fresh_world
        ++ rest
    ∧ ((process_index (test_env 1 2) = 0%Z
        ∧ rest = publish_events (test_env 1 2) "assets" "assets/tokenizer"
                   "/tmp/sp_tmp1")
       ∨ (process_index (test_env 1 2) ≠ 0%Z
          ∧ ∃ k, rest = missed_polls "/work/assets/tokenizer" k
                        ++ [EvExists "/work/assets/tokenizer" true; EvSleep 1])).
Proof.
  eexists. split; [vm_compute; reflexivity|].
  apply (every_rank_samples_and_trains (test_env 1 2) string id records_A 100 4
           "assets" "assets/tokenizer" "unigram" "1.0" ["text"] 3 fresh_world
           "/work/assets/tokenizer").
  vm_compute. reflexivity.
Defined.

(** C1 as the specification words it fails on that run: the process of rank
    1 creates the scratch file, pulls two records, writes six bytes and calls
    the trainer before its first poll. *)
Lemma follower_samples_and_trains :
  let run := _train_sentencepiece (test_env 1 2) string id 3 records_A 100 4
               "assets" "assets/tokenizer" "unigram" "1.0" ["text"] fresh_world in
  process_index (test_env 1 2) ≠ 0%Z
  ∧ run.1 = Returned "/work/assets/tokenizer"
  ∧ ¬ Forall polling_call (trace run.2)
  ∧ pulls (trace run.2) = map Some (take 2 records_A)
  ∧ files run.2 !! "/tmp/ds_chars0" = Some (b "ab" ++ newline ++ b "cd" ++ newline)
  ∧ trace run.2 =
      [ EvTempFile "/tmp/ds_chars" "/tmp/ds_chars0";
        EvNext (Some {[ "text" := b "ab" ]});
        EvWrite "/tmp/ds_chars0" (b "ab" ++ newline);
        EvNext (Some {[ "text" := b "cd" ]});
        EvWrite "/tmp/ds_chars0" (b "cd" ++ newline);
        EvTempFile "/tmp/sp_tmp" "/tmp/sp_tmp1";
        EvTrain "--input=/tmp/ds_chars0 --vocab_size=100 --character_coverage=1.0 --model_prefix=/tmp/sp_tmp1 --model_type=unigram";
        EvExists "/work/assets/tokenizer" false; EvSleep 1;
        EvExists "/work/assets/tokenizer" false; EvSleep 1;
        EvExists "/work/assets/tokenizer" true; EvSleep 1 ].
Proof.
  cbv zeta. split; [done|]. split; [vm_compute; reflexivity|].
  match goal with
  | |- _ ∧ _ ∧ _ ∧ ?E => assert (Ht : E) by (vm_compute; reflexivity)
  end.
  rewrite Ht.
  split; [|split; [vm_compute; reflexivity|split; [vm_compute; reflexivity|done]]].
  intros Hall. apply Forall_inv in Hall. exact Hall.
Qed.


(** * Further properties of the code *)

(** ** The sampler on any outcome *)

Lemma world_eq (w1 w2 : world) :
  files w1 = files w2 → trace w1 = trace w2 →
  tmp_count w1 = tmp_count w2 → poll_count w1 = poll_count w2 → w1 = w2.
Proof. destruct w1, w2. simpl. by intros -> -> -> ->. Qed.

Section SamplerOutcomes.

Variable env : Env.
Variable maxchars : Z.
Variable outfp : string.

(** Whatever its outcome, the loop over the keys writes to [outfp] only, and
    the one exception it raises is [KeyError] on a configured key that the
    record lacks. *)
Lemma for_data_keys_any example data_keys char_count w r w' :
  for_data_keys outfp example data_keys char_count w = (r, w') →
  (∀ p, p ≠ outfp → files w' !! p = files w !! p)
  ∧ tmp_count w' = tmp_count w ∧ poll_count w' = poll_count w
  ∧ (∃ lines, trace w' = trace w ++ map (EvWrite outfp) lines)
  ∧ (∀ e, r = Raised e → ∃ k, k ∈ data_keys ∧ example !! k = None ∧ e = KeyError k).
Proof.
  revert char_count w.
  induction data_keys as [|k ks IH]; intros cc w Hrun; simpl in Hrun.
  - injection Hrun as <- <-.
    split; [done|]. split; [done|]. split; [done|].
    split; [by exists []; rewrite app_nil_r|done].
  - unfold getitem in Hrun. destruct (example !! k) as [v|] eqn:Hk.
    + unfold bind, ret, write in Hrun. simpl in Hrun. apply IH in Hrun.
      destruct Hrun as (Hf & Htc & Hpc & [lines Ht] & Hexn). simpl in *.
      split; [|split; [done|split; [done|split]]].
      * intros p Hp. by rewrite Hf, lookup_insert_ne.
      * exists ((v ++ newline) :: lines). by rewrite Ht, <-app_assoc.
      * intros e He. destruct (Hexn e He) as (k' & Hin & Hnone & ->).
        exists k'. split; [by right|done].
    + injection Hrun as <- <-.
      split; [done|]. split; [done|]. split; [done|].
      split; [by exists []; rewrite app_nil_r|].
      intros e [= <-]. exists k. split; [by left|done].
Qed.

Lemma while_any data_keys ds char_count w r w' :
  while_char_count maxchars outfp data_keys ds char_count w = (r, w') →
  (∀ p, p ≠ outfp → files w' !! p = files w !! p)
  ∧ tmp_count w' = tmp_count w ∧ poll_count w' = poll_count w
  ∧ (∃ evs, trace w' = trace w ++ evs
       ∧ Forall working_call evs
       ∧ Forall (λ e, ∀ p, p ∈ touched e → p = outfp) evs)
  ∧ (∀ e, r = Raised e →
       e = StopIteration ∨ ∃ k, k ∈ data_keys ∧ e = KeyError k).
Proof.
  assert (Hstay : ∀ v : world, ∃ evs, trace v = trace v ++ evs
            ∧ Forall working_call evs
            ∧ Forall (λ e, ∀ p, p ∈ touched e → p = outfp) evs).
  { intros v. exists []. rewrite app_nil_r. split; [done|]. split; constructor. }
  revert char_count w.
  induction ds as [|example ds IH]; intros cc w Hrun; simpl in Hrun;
    destruct (cc <? maxchars)%Z.
  - injection Hrun as <- <-. simpl.
    split; [done|]. split; [done|]. split; [done|]. split.
    + exists [EvNext None]. split; [done|].
      split; (constructor; [|constructor]); [done|]. by intros p ?%elem_of_nil.
    + intros e [= <-]. by left.
  - injection Hrun as <- <-.
    split; [done|]. split; [done|]. split; [done|]. split; [apply Hstay|done].
  - unfold bind at 1 2 in Hrun. simpl in Hrun.
    destruct (for_data_keys _ _ _ _ _) as [r1 w1] eqn:Hfor.
    apply for_data_keys_any in Hfor as (Hf1 & Htc1 & Hpc1 & [lines Ht1] & Hexn1).
    simpl in *.
    assert (Hhead : ∃ evs, trace w1 = trace w ++ evs ∧ Forall working_call evs
                     ∧ Forall (λ e, ∀ p, p ∈ touched e → p = outfp) evs).
    { exists (EvNext (Some example) :: map (EvWrite outfp) lines).
      rewrite Ht1, <-app_assoc. split; [done|].
      split; (constructor; [|clear; induction lines; constructor]); try done.
      - by intros p ?%elem_of_nil.
      - by intros p ->%list_elem_of_singleton. }
    destruct Hhead as (evs1 & Ht1' & Hw1 & Hd1).
    destruct r1 as [cc1|e1|].
    + apply IH in Hrun as (Hf & Htc & Hpc & (evs & Ht & Hw & Hd) & Hexn).
      split; [intros p Hp; by rewrite Hf, Hf1|].
      split; [congruence|]. split; [congruence|]. split; [|done].
      exists (evs1 ++ evs). rewrite Ht, Ht1', <-app_assoc.
      split; [done|]. split; by apply Forall_app.
    + injection Hrun as <- <-.
      split; [done|]. split; [done|]. split; [done|]. split; [by exists evs1|].
      intros e [= <-]. destruct (Hexn1 e1 eq_refl) as (k & Hin & _ & ->).
      right. eauto.
    + injection Hrun as <- <-.
      split; [done|]. split; [done|]. split; [done|]. split; [by exists evs1|done].
  - injection Hrun as <- <-.
    split; [done|]. split; [done|]. split; [done|]. split; [apply Hstay|done].
Qed.

End SamplerOutcomes.

Lemma dump_any env dataset maxchars data_keys w r w' :
  _dump_chars_to_textfile env dataset maxchars data_keys w = (r, w') →
  (∀ p, p ≠ scratch_name env w → files w' !! p = files w !! p)
  ∧ tmp_count w' = S (tmp_count w) ∧ poll_count w' = poll_count w
  ∧ (∃ evs, trace w' = trace w ++ evs
       ∧ Forall working_call evs
       ∧ Forall (λ e, ∀ p, p ∈ touched e → p = scratch_name env w) evs)
  ∧ (∀ e, r = Raised e →
       e = StopIteration ∨ ∃ k, k ∈ data_keys ∧ e = KeyError k).
Proof.
  rewrite dump_unfold.
  destruct (while_char_count _ _ _ _ _ _) as [r1 w1] eqn:Hrun.
  apply while_any in Hrun as (Hf & Htc & Hpc & (evs & Ht & Hw & Hd) & Hexn).
  simpl in *. intros Heq.
  assert (Hw' : w' = w1) by (destruct r1; by injection Heq).
  subst w'. split; [|split; [done|split; [done|split]]].
  - intros p Hp. by rewrite Hf, lookup_insert_ne.
  - exists (EvTempFile "/tmp/ds_chars" (scratch_name env w) :: evs).
    rewrite Ht, <-app_assoc. split; [done|].
    split; constructor; try done. by intros p ->%list_elem_of_singleton.
  - intros e ->. destruct r1; try done. injection Heq as ->. by apply Hexn.
Qed.

(** X1.  Whatever its outcome, the sampler creates one temporary file and
    touches no other: every file that existed keeps its content, every call
    that creates or writes a file names the scratch file, and no poll is
    made. *)
Theorem sampler_touches_scratch_only env dataset maxchars data_keys w :
  let w' := (_dump_chars_to_textfile env dataset maxchars data_keys w).2 in
  (∀ p, p ≠ scratch_name env w → files w' !! p = files w !! p)
  ∧ tmp_count w' = S (tmp_count w)
  ∧ poll_count w' = poll_count w
  ∧ ∃ evs, trace w' = trace w ++ evs
      ∧ Forall working_call evs
      ∧ Forall (λ e, ∀ p, p ∈ touched e → p = scratch_name env w) evs.
Proof.
  destruct (_dump_chars_to_textfile env dataset maxchars data_keys w)
    as [r w'] eqn:Hrun.
  apply dump_any in Hrun as (Hf & Htc & Hpc & Hevs & _). by simpl.
Qed.

Section MissingKey.

Variable maxchars : Z.
Variable outfp : string.
Variables (ks1 : list string) (k : string) (ks2 : list string).
Variable example : gmap string bytes.

Lemma for_data_keys_missing v1 char_count w c0 :
  record_fields ks1 example = Some v1 →
  example !! k = None →
  files w !! outfp = Some c0 →
  ∃ w', for_data_keys outfp example (ks1 ++ k :: ks2) char_count w
        = (Raised (KeyError k), w')
    ∧ files w' = <[outfp := c0 ++ serialize v1]> (files w)
    ∧ trace w' = trace w ++ map (λ v, EvWrite outfp (line_of v)) v1
    ∧ tmp_count w' = tmp_count w ∧ poll_count w' = poll_count w.
Proof.
  intros Hv1 Hk. revert v1 Hv1 char_count w c0.
  induction ks1 as [|k1 ks IH]; intros v1 Hv1 cc w c0 Hc0; simpl in *.
  - injection Hv1 as <-. unfold getitem. rewrite Hk. exists w.
    split; [done|]. by rewrite !app_nil_r, insert_id.
  - unfold getitem. destruct (example !! k1) as [v|] eqn:Hk1; [|done].
    destruct (record_fields ks example) as [vs|] eqn:Hvs; [|done].
    injection Hv1 as <-. unfold bind at 1 2, ret, write. simpl.
    destruct (IH vs eq_refl (cc + len (v ++ newline))%Z
                {| files := <[outfp := default [] (files w !! outfp) ++ v ++ newline]>
                              (files w);
                   trace := trace w ++ [EvWrite outfp (v ++ newline)];
                   tmp_count := tmp_count w; poll_count := poll_count w |}
                (c0 ++ line_of v))
      as (w' & Hrun & Hf & Ht & Htc & Hpc).
    { simpl. by rewrite Hc0, lookup_insert_eq. }
    exists w'. split; [done|]. simpl in *.
    split; [by rewrite Hf, Hc0, insert_insert_eq, serialize_cons, <-app_assoc|].
    split; [by rewrite Ht, <-app_assoc|done].
Qed.

Lemma while_missing pre post v1 char_count w c0 vs :
  record_fields ks1 example = Some v1 →
  example !! k = None →
  files w !! outfp = Some c0 →
  stream_fields (ks1 ++ k :: ks2) pre = Some vs →
  (char_count + len (serialize vs) < maxchars)%Z →
  ∃ w', while_char_count maxchars outfp (ks1 ++ k :: ks2) (pre ++ example :: post)
          char_count w
        = (Raised (KeyError k), w')
    ∧ files w' = <[outfp := c0 ++ serialize (vs ++ v1)]> (files w)
    ∧ trace w' = trace w ++ sample_events outfp (ks1 ++ k :: ks2) pre
                   ++ EvNext (Some example)
                      :: map (λ v, EvWrite outfp (line_of v)) v1.
Proof.
  intros Hv1 Hk. revert char_count w c0 vs.
  induction pre as [|r pre IH]; intros cc w c0 vs Hc0 Hvs Hlt; simpl in Hvs.
  - injection Hvs as <-. change (len (serialize [])) with 0%Z in Hlt. simpl.
    destruct (Z.ltb_spec cc maxchars); [|lia].
    unfold bind at 1 2. simpl.
    destruct (for_data_keys_missing v1 cc
                (emit (EvNext (Some example)) w).2 c0 Hv1 Hk Hc0)
      as (w' & Hrun & Hf & Ht & _).
    simpl in *. rewrite Hrun. exists w'. split; [done|].
    split; [done|]. by rewrite Ht, <-app_assoc.
  - destruct (record_fields (ks1 ++ k :: ks2) r) as [vr|] eqn:Hvr; [|done].
    destruct (stream_fields (ks1 ++ k :: ks2) pre) as [vrest|] eqn:Hvrest; [|done].
    injection Hvs as <-. rewrite serialize_app, len_app in Hlt.
    pose proof (len_nonneg (serialize vr)). pose proof (len_nonneg (serialize vrest)).
    destruct (while_pull maxchars outfp (ks1 ++ k :: ks2) r (pre ++ example :: post)
                cc w c0 vr) as (w1 & Heq & Hf & Ht & _); [lia|done|done|].
    destruct (IH (cc + len (serialize vr))%Z w1 (c0 ++ serialize vr) vrest)
      as (w' & Hrun & Hf' & Ht'); [by rewrite Hf, lookup_insert_eq|done|lia|].
    exists w'.
    change ((r :: pre) ++ example :: post) with (r :: pre ++ example :: post).
    rewrite Heq, Hrun. split; [done|]. split.
    + rewrite Hf', Hf, insert_insert_eq, <-(app_assoc vr vrest v1).
      by rewrite (serialize_app vr), <-app_assoc.
    + rewrite Ht', Ht, (sample_events_cons outfp _ r pre). by rewrite <-!app_assoc.
Qed.

End MissingKey.

Lemma pulls_writes outfp vs :
  pulls (map (λ v, EvWrite outfp (line_of v)) vs) = [].
Proof. unfold pulls. by induction vs. Qed.

Lemma writes_to_writes outfp vs :
  writes_to outfp (map (λ v, EvWrite outfp (line_of v)) vs) = map line_of vs.
Proof.
  unfold writes_to. induction vs as [|v vs IH]; [done|]. simpl.
  rewrite decide_True by done. f_equal. apply IH.
Qed.

Lemma pulls_app evs1 evs2 : pulls (evs1 ++ evs2) = pulls evs1 ++ pulls evs2.
Proof. apply omap_app. Qed.

Lemma writes_to_app outfp evs1 evs2 :
  writes_to outfp (evs1 ++ evs2) = writes_to outfp evs1 ++ writes_to outfp evs2.
Proof. apply omap_app. Qed.

Lemma pulls_next r evs : pulls (EvNext r :: evs) = r :: pulls evs.
Proof. reflexivity. Qed.

Lemma pulls_tempfile prefix name evs : pulls (EvTempFile prefix name :: evs) = pulls evs.
Proof. reflexivity. Qed.

Lemma writes_to_next outfp r evs :
  writes_to outfp (EvNext r :: evs) = writes_to outfp evs.
Proof. reflexivity. Qed.

Lemma writes_to_tempfile outfp prefix name evs :
  writes_to outfp (EvTempFile prefix name :: evs) = writes_to outfp evs.
Proof. reflexivity. Qed.

(** X2.  A record that lacks a configured key, reached before the budget is
    met, makes the sampler raise [KeyError] for the first such key in key
    order.  The records before it are in the scratch file in full, and so
    are the fields of the faulty record that come before the missing key;
    the records after it are not pulled. *)
Theorem missing_key_raises env pre example post maxchars ks1 k ks2 w vs v1 :
  stream_fields (ks1 ++ k :: ks2) pre = Some vs →
  (len (serialize vs) < maxchars)%Z →
  record_fields ks1 example = Some v1 →
  example !! k = None →
  ∃ w' evs,
    _dump_chars_to_textfile env (pre ++ example :: post) maxchars
      (ks1 ++ k :: ks2) w
    = (Raised (KeyError k), w')
    ∧ files w' !! scratch_name env w = Some (serialize (vs ++ v1))
    ∧ trace w' = trace w ++ evs
    ∧ pulls evs = map Some (pre ++ [example])
    ∧ writes_to (scratch_name env w) evs = map line_of (vs ++ v1).
Proof.
  intros Hvs Hlt Hv1 Hk. rewrite dump_unfold.
  destruct (while_missing maxchars (scratch_name env w) ks1 k ks2 example
              pre post v1 0 (NamedTemporaryFile env "/tmp/ds_chars" w).2 [] vs)
    as (w' & Hrun & Hf & Ht); [done|done|apply scratch_is_empty|done|done|].
  rewrite Hrun.
  exists w', (EvTempFile "/tmp/ds_chars" (scratch_name env w)
              :: sample_events (scratch_name env w) (ks1 ++ k :: ks2) pre
              ++ EvNext (Some example)
                 :: map (λ v, EvWrite (scratch_name env w) (line_of v)) v1).
  split; [done|]. split; [rewrite Hf; apply lookup_insert_eq|].
  split; [rewrite Ht; simpl; by rewrite <-app_assoc|]. split.
  - by rewrite pulls_tempfile, pulls_app, pulls_next, pulls_sample_events,
      pulls_writes, map_app.
  - by rewrite writes_to_tempfile, writes_to_app, writes_to_next,
      (writes_to_sample_events _ _ _ vs), writes_to_writes, map_app.
Qed.

(** The record [{a: q}] lacks the second key; it comes second of three. *)
Lemma missing_key_raises_witness :
  stream_fields ([ "a" ] ++ "b" :: []) [record_xy] = Some [b "x"; b "y"] ∧
  (len (serialize [b "x"; b "y"]) < 100)%Z ∧
  record_fields ["a"] {[ "a" := b "q" ]} = Some [b "q"] ∧
  ({[ "a" := b "q" ]} : gmap string bytes) !! "b" = None ∧
  ∃ w' evs,
    _dump_chars_to_textfile (test_env 0 0)
      ([record_xy] ++ {[ "a" := b "q" ]} :: [record_xy]) 100
      ([ "a" ] ++ "b" :: []) fresh_world
    = (Raised (KeyError "b"), w')
    ∧ files w' !! "/tmp/ds_chars0" = Some (serialize ([b "x"; b "y"] ++ [b "q"]))
    ∧ trace w' = trace fresh_world ++ evs
    ∧ pulls evs = map Some ([record_xy] ++ [{[ "a" := b "q" ]}])
    ∧ writes_to "/tmp/ds_chars0" evs = map line_of ([b "x"; b "y"] ++ [b "q"]).
Proof.
  split; [reflexivity|]. split; [vm_compute; reflexivity|].
  split; [reflexivity|]. split; [reflexivity|].
  apply (missing_key_raises (test_env 0 0) [record_xy] {[ "a" := b "q" ]}
           [record_xy] 100 ["a"] "b" [] fresh_world [b "x"; b "y"] [b "q"]).
  - reflexivity.
  - vm_compute. reflexivity.
  - reflexivity.
  - reflexivity.
Defined.

Lemma stream_fields_no_keys ds : stream_fields [] ds = Some [].
Proof. induction ds as [|r ds IH]; [done|]. simpl. by rewrite IH. Qed.

(** X3.  With no key configured the count never moves: for a positive
    budget the sampler pulls every record of the stream, writes nothing, and
    raises [StopIteration]; it returns for no stream. *)
Theorem no_keys_exhausts_stream env dataset maxchars w :
  (0 < maxchars)%Z →
  ∃ w' evs,
    _dump_chars_to_textfile env dataset maxchars [] w = (Raised StopIteration, w')
    ∧ files w' !! scratch_name env w = Some []
    ∧ trace w' = trace w ++ evs
    ∧ pulls evs = map Some dataset ++ [None]
    ∧ writes_to (scratch_name env w) evs = [].
Proof.
  intros Hpos.
  destruct (dump_exhausted env dataset maxchars [] w [] (stream_fields_no_keys _))
    as (w' & Hrun & Hf & Ht & _); [done|].
  eexists w', _. split; [done|]. split; [rewrite Hf; apply lookup_insert_eq|].
  split; [exact Ht|]. split.
  - by rewrite pulls_tempfile, pulls_app, pulls_sample_events.
  - rewrite writes_to_tempfile, writes_to_app.
    by rewrite (writes_to_sample_events _ _ _ [] (stream_fields_no_keys _)).
Qed.

Lemma no_keys_exhausts_stream_witness :
  (0 < 1)%Z ∧
  ∃ w' evs,
    _dump_chars_to_textfile (test_env 0 0) records_A 1 [] fresh_world
    = (Raised StopIteration, w')
    ∧ files w' !! "/tmp/ds_chars0" = Some []
    ∧ trace w' = trace fresh_world ++ evs
    ∧ pulls evs = map Some records_A ++ [None]
    ∧ writes_to "/tmp/ds_chars0" evs = [].
Proof.
  split; [lia|].
  apply (no_keys_exhausts_stream (test_env 0 0) records_A 1 fresh_world). lia.
Defined.

(** X4.  The sampler reads no further than the record that meets the
    budget: whatever comes after the records of a run that returned, well
    formed or not, changes nothing in its result nor in the world it leaves. *)
Theorem records_after_budget_unread env dataset maxchars data_keys w res w' extra :
  _dump_chars_to_textfile env dataset maxchars data_keys w = (Returned res, w') →
  _dump_chars_to_textfile env (dataset ++ extra) maxchars data_keys w
  = (Returned res, w').
Proof.
  intros Hrun. destruct res as [name n].
  apply dump_returned_inv in Hrun
    as (-> & m & vs & Hm & Hvs & -> & Hge & Hbelow & Hf & Ht & Htc & Hpc).
  destruct (dump_returns env (dataset ++ extra) maxchars data_keys m w vs)
    as (w'' & Hrun' & Hf' & Ht' & Htc' & Hpc').
  - rewrite length_app. lia.
  - by rewrite take_app_le.
  - done.
  - intros j Hj. rewrite take_app_le by lia. by apply Hbelow.
  - rewrite Hrun'. do 2 f_equal. rewrite take_app_le in Ht' by done.
    apply world_eq; congruence.
Qed.

Lemma records_after_budget_unread_witness :
  ∃ w',
    _dump_chars_to_textfile (test_env 0 0) records_A 4 ["text"] fresh_world
    = (Returned ("/tmp/ds_chars0", 6%Z), w')
    ∧ _dump_chars_to_textfile (test_env 0 0) (records_A ++ [record_xy]) 4
        ["text"] fresh_world
      = (Returned ("/tmp/ds_chars0", 6%Z), w').
Proof.
  eexists. split; [vm_compute; reflexivity|].
  apply (records_after_budget_unread (test_env 0 0) records_A 4 ["text"]
           fresh_world ("/tmp/ds_chars0", 6%Z)).
  vm_compute. reflexivity.
Defined.

Lemma stream_fields_take_le data_keys ds m1 m2 vs2 :
  m1 ≤ m2 →
  stream_fields data_keys (take m2 ds) = Some vs2 →
  ∃ vs1 rest, stream_fields data_keys (take m1 ds) = Some vs1 ∧ vs2 = vs1 ++ rest.
Proof.
  revert m1 m2 vs2. induction ds as [|r ds IH]; intros m1 m2 vs2 Hle Hvs2.
  - rewrite take_nil in *. exists [], vs2. by destruct m1.
  - destruct m1 as [|m1]; [by exists [], vs2|].
    destruct m2 as [|m2]; [lia|]. simpl in *.
    destruct (record_fields data_keys r) as [vr|]; [|done].
    destruct (stream_fields data_keys (take m2 ds)) as [v2|] eqn:Hv2; [|done].
    injection Hvs2 as <-.
    destruct (IH m1 m2 v2) as (v1 & rest & Hv1 & ->); [lia|done|].
    rewrite Hv1. exists (vr ++ v1), rest. by rewrite app_assoc.
Qed.

(** X5.  A larger budget gives a larger sample of the same stream: when the
    sampler returns for two budgets, the count for the smaller budget is at
    most the count for the larger, and the scratch file for the smaller
    budget is a prefix of the scratch file for the larger. *)
Theorem larger_budget_extends_sample env1 env2 dataset data_keys
    maxchars1 maxchars2 w1 w2 name1 n1 w1' name2 n2 w2' :
  (maxchars1 ≤ maxchars2)%Z →
  _dump_chars_to_textfile env1 dataset maxchars1 data_keys w1
  = (Returned (name1, n1), w1') →
  _dump_chars_to_textfile env2 dataset maxchars2 data_keys w2
  = (Returned (name2, n2), w2') →
  (n1 ≤ n2)%Z
  ∧ ∃ c1 c2, files w1' !! name1 = Some c1 ∧ files w2' !! name2 = Some c2
      ∧ c1 `prefix_of` c2.
Proof.
  intros Hle Hrun1 Hrun2.
  apply dump_returned_inv in Hrun1
    as (_ & m1 & vs1 & Hm1 & Hvs1 & -> & Hge1 & Hbelow1 & Hf1 & _).
  apply dump_returned_inv in Hrun2
    as (_ & m2 & vs2 & Hm2 & Hvs2 & -> & Hge2 & Hbelow2 & Hf2 & _).
  assert (Hm : m1 ≤ m2).
  { destruct (decide (m1 ≤ m2)) as [|Hgt]; [done|].
    destruct (Hbelow1 m2) as (vj & Hvj & Hlt); [lia|].
    rewrite Hvs2 in Hvj. injection Hvj as <-. lia. }
  destruct (stream_fields_take_le data_keys dataset m1 m2 vs2 Hm Hvs2)
    as (v1 & rest & Hv1 & ->).
  rewrite Hvs1 in Hv1. injection Hv1 as <-.
  rewrite serialize_app, len_app. pose proof (len_nonneg (serialize rest)).
  split; [lia|]. exists (serialize vs1), (serialize vs1 ++ serialize rest).
  split; [rewrite Hf1; apply lookup_insert_eq|].
  split; [rewrite Hf2, serialize_app; apply lookup_insert_eq|].
  by exists (serialize rest).
Qed.

Lemma larger_budget_extends_sample_witness :
  (1 ≤ 4)%Z ∧
  ∃ w1' w2',
    _dump_chars_to_textfile (test_env 0 0) records_A 1 ["text"] fresh_world
    = (Returned ("/tmp/ds_chars0", 3%Z), w1')
    ∧ _dump_chars_to_textfile (test_env 1 0) records_A 4 ["text"] fresh_world
      = (Returned ("/tmp/ds_chars0", 6%Z), w2')
    ∧ (3 ≤ 6)%Z
    ∧ ∃ c1 c2, files w1' !! "/tmp/ds_chars0" = Some c1
        ∧ files w2' !! "/tmp/ds_chars0" = Some c2
        ∧ c1 `prefix_of` c2.
Proof.
  split; [lia|]. eexists _, _.
  split; [vm_compute; reflexivity|]. split; [vm_compute; reflexivity|].
  apply (larger_budget_extends_sample (test_env 0 0) (test_env 1 0) records_A
           ["text"] 1 4 fresh_world fresh_world "/tmp/ds_chars0" 3 _
           "/tmp/ds_chars0" 6 _).
  - lia.
  - vm_compute. reflexivity.
  - vm_compute. reflexivity.
Defined.

Lemma record_fields_length data_keys example vs :
  record_fields data_keys example = Some vs → length vs = length data_keys.
Proof.
  revert vs. induction data_keys as [|k ks IH]; intros vs Hvs; simpl in Hvs.
  { by injection Hvs as <-. }
  destruct (example !! k); [|done].
  destruct (record_fields ks example) as [vs'|]; [|done].
  injection Hvs as <-. simpl. by rewrite (IH vs').
Qed.

Lemma stream_fields_length data_keys ds vs :
  stream_fields data_keys ds = Some vs →
  length vs = length ds * length data_keys.
Proof.
  revert vs. induction ds as [|r ds IH]; intros vs Hvs; simpl in Hvs.
  { by injection Hvs as <-. }
  destruct (record_fields data_keys r) as [vr|] eqn:Hvr; [|done].
  destruct (stream_fields data_keys ds) as [vrest|]; [|done].
  injection Hvs as <-.
  rewrite length_app, (record_fields_length _ _ _ Hvr), (IH vrest) by done.
  simpl. lia.
Qed.

Lemma len_serialize_ge vs : (Z.of_nat (length vs) ≤ len (serialize vs))%Z.
Proof.
  induction vs as [|v vs IH]; [done|].
  rewrite serialize_cons, len_app, len_line_of. pose proof (len_nonneg v).
  simpl length. lia.
Qed.

(** X6.  Every field write adds at least its newline to the count, so with
    at least one key configured a sampler that returns has pulled no more
    records than the budget has bytes: the records before the last one, at
    one byte per field or more, stayed below the budget. *)
Theorem pulls_bounded_by_budget env dataset maxchars data_keys w name n w' :
  data_keys ≠ [] →
  _dump_chars_to_textfile env dataset maxchars data_keys w = (Returned (name, n), w') →
  ∃ evs, trace w' = trace w ++ evs
    ∧ ((Z.of_nat (length (pulls evs)) - 1) * Z.of_nat (length data_keys)
       < Z.max 0 maxchars)%Z
    ∧ (Z.of_nat (length (pulls evs)) ≤ Z.max 0 maxchars)%Z.
Proof.
  intros Hkeys Hrun. apply dump_returned_inv in Hrun
    as (-> & m & vs & Hm & Hvs & -> & Hge & Hbelow & _ & Ht & _).
  eexists. split; [exact Ht|].
  rewrite pulls_tempfile, pulls_sample_events, length_map, length_take_le by done.
  assert (Hk : (1 ≤ Z.of_nat (length data_keys))%Z).
  { destruct data_keys; [done|]. simpl length. lia. }
  destruct m as [|j]; [lia|].
  destruct (Hbelow j) as (vj & Hvj & Hlt); [lia|].
  pose proof (len_serialize_ge vj) as Hlen.
  rewrite (stream_fields_length _ _ _ Hvj), length_take_le in Hlen by lia.
  nia.
Qed.

Lemma pulls_bounded_by_budget_witness :
  ["text"] ≠ [] ∧
  ∃ w', _dump_chars_to_textfile (test_env 0 0) records_A 4 ["text"] fresh_world
        = (Returned ("/tmp/ds_chars0", 6%Z), w') ∧
  ∃ evs, trace w' = trace fresh_world ++ evs
    ∧ ((Z.of_nat (length (pulls evs)) - 1) * Z.of_nat (length ["text"])
       < Z.max 0 4)%Z
    ∧ (Z.of_nat (length (pulls evs)) ≤ Z.max 0 4)%Z.
Proof.
  split; [done|]. eexists. split; [vm_compute; reflexivity|].
  apply (pulls_bounded_by_budget (test_env 0 0) records_A 4 ["text"] fresh_world
           "/tmp/ds_chars0" 6).
  - done.
  - vm_compute. reflexivity.
Defined.

(** X7.  A sampler that returns has written whole records only: the number
    of lines in the scratch file is the number of records pulled times the
    number of configured keys. *)
Theorem whole_records_written env dataset maxchars data_keys w name n w' :
  _dump_chars_to_textfile env dataset maxchars data_keys w = (Returned (name, n), w') →
  ∃ evs, trace w' = trace w ++ evs
    ∧ length (writes_to name evs) = length (pulls evs) * length data_keys.
Proof.
  intros Hrun. apply dump_returned_inv in Hrun
    as (-> & m & vs & Hm & Hvs & -> & Hge & Hbelow & _ & Ht & _).
  eexists. split; [exact Ht|].
  rewrite pulls_tempfile, pulls_sample_events, writes_to_tempfile,
    (writes_to_sample_events _ _ _ vs), !length_map by done.
  by apply stream_fields_length.
Qed.

Lemma whole_records_written_witness :
  ∃ w', _dump_chars_to_textfile (test_env 0 0) [record_xy; record_xy] 1
          ["a"; "b"] fresh_world
        = (Returned ("/tmp/ds_chars0", 4%Z), w') ∧
  ∃ evs, trace w' = trace fresh_world ++ evs
    ∧ length (writes_to "/tmp/ds_chars0" evs)
      = length (pulls evs) * length ["a"; "b"].
Proof.
  eexists. split; [vm_compute; reflexivity|].
  apply (whole_records_written (test_env 0 0) [record_xy; record_xy] 1
           ["a"; "b"] fresh_world "/tmp/ds_chars0" 4).
  vm_compute. reflexivity.
Defined.

(** ** The coordinator on any outcome *)

Lemma wait_any env path fuel w r w' :
  while_not_exists env fuel path w = (r, w') →
  ∃ evs, trace w' = trace w ++ evs ∧ Forall polling_call evs.
Proof.
  revert w. induction fuel as [|fuel IH]; intros w Hrun.
  - injection Hrun as <- <-. exists []. by rewrite app_nil_r.
  - destruct (path_exists env (poll_count w) path) eqn:Hnow.
    + rewrite wait_found in Hrun by done. injection Hrun as <- <-.
      exists [EvExists path true]. split; [done|]. by repeat constructor.
    + rewrite wait_again in Hrun by done. apply IH in Hrun as (evs & Ht & Hevs).
      simpl in Ht. exists ([EvExists path false; EvSleep 1] ++ evs).
      rewrite Ht, <-app_assoc. split; [done|].
      apply Forall_app. split; [by repeat constructor|done].
Qed.

Lemma missed_polls_polling path k : Forall polling_call (missed_polls path k).
Proof.
  induction k as [|k IH]; [constructor|].
  rewrite missed_polls_S. apply Forall_app. split; [|done].
  by repeat constructor.
Qed.

Lemma publish_events_publishing env assets_path model_path model_fp :
  Forall publishing_call (publish_events env assets_path model_path model_fp).
Proof.
  unfold publish_events. destruct (startswith model_path "gs://");
    by repeat constructor.
Qed.

Lemma scratch_is_not_sp_tmp env w : scratch_name env w ≠ sp_tmp_name env w.
Proof. unfold scratch_name, sp_tmp_name. simpl. by intros [=]. Qed.

Section Outcomes.

Variable env : Env.
Variable float : Type.
Variable str_float : float → string.
Variable dataset : list (gmap string bytes).
Variables vocab_size maxchars : Z.
Variables assets_path model_path model_type : string.
Variable character_coverage : float.
Variable data_keys : list string.

(** The three ways a call ends, and the calls made on each. *)
Lemma run_any fuel w r w' :
  _train_sentencepiece env float str_float fuel dataset vocab_size maxchars
    assets_path model_path model_type character_coverage data_keys w
  = (r, w') →
  let abs_model_path := final_path env model_path in
  let argstr := train_args (scratch_name env w) (pretty vocab_size)
                  (str_float character_coverage) (sp_tmp_name env w) model_type in
  ∃ work rest,
    trace w' = trace w ++ work ++ rest
    ∧ Forall working_call work
    ∧ match r with
      | Returned p =>
          p = abs_model_path
          ∧ (∃ m, work = work_events env data_keys (take m dataset) argstr w)
          ∧ ((process_index env = 0%Z
              ∧ rest = publish_events env assets_path model_path (sp_tmp_name env w))
             ∨ (process_index env ≠ 0%Z
                ∧ ∃ k, rest = missed_polls abs_model_path k
                              ++ [EvExists abs_model_path true; EvSleep 1]))
      | Raised e =>
          rest = []
          ∧ (e = StopIteration ∨ (∃ k, k ∈ data_keys ∧ e = KeyError k)
             ∨ e = TrainerError argstr)
      | OutOfFuel => process_index env ≠ 0%Z ∧ Forall polling_call rest
      end.
Proof.
  intros Hrun abs_model_path argstr.
  destruct (_dump_chars_to_textfile env dataset maxchars data_keys w)
    as [[[fname n]|e|] w1] eqn:Hdump.
  - assert (Hfst : (_dump_chars_to_textfile env dataset maxchars data_keys w).1
                   = Returned (fname, n)) by by rewrite Hdump.
    destruct (run_after_sampling env float str_float dataset vocab_size maxchars
                assets_path model_path model_type character_coverage data_keys
                fuel w fname n Hfst) as (-> & w2 & m & _ & Ht & _ & Heq).
    fold argstr abs_model_path in Heq, Ht. rewrite Hrun in Heq.
    exists (work_events env data_keys (take m dataset) argstr w).
    destruct (trainer_ok env argstr).
    + destruct (Z.eqb_spec (process_index env) 0) as [Hrank|Hrank].
      * injection Heq as -> ->. eexists. unfold add_events. cbn [trace].
        split; [by rewrite Ht, <-app_assoc|].
        split; [apply work_events_working|]. split; [done|].
        split; [by exists m|by left].
      * destruct (while_not_exists env fuel abs_model_path w2)
          as [[[]| |] w3] eqn:Hwait.
        -- injection Heq as -> ->.
           apply wait_returned_inv in Hwait as (k & _ & _ & _ & ->).
           exists (missed_polls abs_model_path k
                   ++ [EvExists abs_model_path true; EvSleep 1]).
           unfold add_events. cbn [trace].
           split; [by rewrite Ht, <-!app_assoc|].
           split; [apply work_events_working|]. split; [done|].
           split; [by exists m|right; eauto].
        -- by apply wait_not_raised in Hwait.
        -- injection Heq as -> ->.
           apply wait_any in Hwait as (evs & Ht3 & Hevs). exists evs.
           split; [by rewrite Ht3, Ht, <-app_assoc|].
           split; [apply work_events_working|done].
    + injection Heq as -> ->. exists [].
      split; [by rewrite app_nil_r|]. split; [apply work_events_working|].
      split; [done|]. by right; right.
  - rewrite (train_sampler_raised _ _ _ _ _ _ _ _ _ _ _ _ _ _ _ Hdump) in Hrun.
    injection Hrun as <- <-.
    apply dump_any in Hdump as (_ & _ & _ & (evs & Ht & Hw & _) & Hexn).
    exists evs, []. rewrite app_nil_r. split; [done|]. split; [done|].
    split; [done|]. destruct (Hexn e eq_refl) as [->|Hk]; [by left|by right; left].
  - by apply dump_not_out_of_fuel in Hdump.
Qed.

(** X8.  When the trainer fails, the call raises on every rank right after
    the trainer call: no publishing call and no poll is made.  Nothing is
    cleaned up: the scratch file still holds the whole sample and the second
    temporary file, which never has the name of the first, is still there,
    empty. *)
Theorem trainer_failure_stops_run fuel w fname n :
  (_dump_chars_to_textfile env dataset maxchars data_keys w).1 = Returned (fname, n) →
  trainer_ok env (train_args (scratch_name env w) (pretty vocab_size)
                    (str_float character_coverage) (sp_tmp_name env w) model_type)
  = false →
  let argstr := train_args (scratch_name env w) (pretty vocab_size)
                  (str_float character_coverage) (sp_tmp_name env w) model_type in
  ∃ w' m vs,
    _train_sentencepiece env float str_float fuel dataset vocab_size maxchars
      assets_path model_path model_type character_coverage data_keys w
    = (Raised (TrainerError argstr), w')
    ∧ trace w' = trace w ++ work_events env data_keys (take m dataset) argstr w
    ∧ Forall working_call (work_events env data_keys (take m dataset) argstr w)
    ∧ n = len (serialize vs)
    ∧ files w' !! scratch_name env w = Some (serialize vs)
    ∧ files w' !! sp_tmp_name env w = Some []
    ∧ scratch_name env w ≠ sp_tmp_name env w.
Proof.
  intros Hfst Hfail argstr.
  destruct (_dump_chars_to_textfile env dataset maxchars data_keys w)
    as [r w1] eqn:Hdump. simpl in Hfst. subst r.
  pose proof (train_unfold env float str_float dataset vocab_size maxchars
                assets_path model_path model_type character_coverage data_keys
                fuel w _ _ _ Hdump) as Hrun.
  apply dump_returned_inv in Hdump
    as (-> & m & vs & _ & _ & -> & _ & _ & Hf & Ht & Htc & _).
  cbv zeta in Hrun. rewrite Htc in Hrun.
  fold (sp_tmp_name env w) in Hrun. fold argstr in Hrun, Hfail.
  rewrite Hfail in Hrun. eexists _, m, vs. split; [exact Hrun|].
  pose proof (scratch_is_not_sp_tmp env w) as Hne.
  unfold trained. cbn [files trace].
  split; [unfold work_events; by rewrite Ht, <-app_assoc|].
  split; [apply work_events_working|]. split; [done|].
  split; [by rewrite lookup_insert_ne, Hf, lookup_insert_eq|].
  split; [apply lookup_insert_eq|done].
Qed.

(** X9.  A process of rank other than 0 makes no publishing call, however
    its run ends: no [makedirs], no copy, no rename, no log line. *)
Theorem follower_never_publishes fuel w :
  process_index env ≠ 0%Z →
  let w' := (_train_sentencepiece env float str_float fuel dataset vocab_size
               maxchars assets_path model_path model_type character_coverage
               data_keys w).2 in
  ∃ evs, trace w' = trace w ++ evs ∧ Forall (λ e, ¬ publishing_call e) evs.
Proof.
  intros Hrank.
  destruct (_train_sentencepiece env float str_float fuel dataset vocab_size
              maxchars assets_path model_path model_type character_coverage
              data_keys w) as [r w'] eqn:Hrun.
  apply run_any in Hrun as (work & rest & Ht & Hwork & Hrest). simpl.
  exists (work ++ rest). split; [done|]. apply Forall_app. split.
  - eapply Forall_impl; [exact Hwork|]. intros []; simpl; tauto.
  - assert (Hpoll : Forall polling_call rest).
    { destruct r as [p|e|].
      - destruct Hrest as (_ & _ & [[? _]|(_ & k & ->)]); [done|].
        apply Forall_app. split; [apply missed_polls_polling|].
        by repeat constructor.
      - destruct Hrest as [-> _]. constructor.
      - by destruct Hrest. }
    eapply Forall_impl; [exact Hpoll|]. intros []; simpl; tauto.
Qed.

(** X10.  Process 0 never waits: it makes no [exists] call and no [sleep]
    call, and its run ends by a return or an exception, never in the waiting
    loop, whatever the other processes do. *)
Theorem leader_never_waits fuel w :
  process_index env = 0%Z →
  let run := _train_sentencepiece env float str_float fuel dataset vocab_size
               maxchars assets_path model_path model_type character_coverage
               data_keys w in
  run.1 ≠ OutOfFuel
  ∧ poll_count run.2 = poll_count w
  ∧ ∃ evs, trace run.2 = trace w ++ evs ∧ Forall (λ e, ¬ polling_call e) evs.
Proof.
  intros Hrank run. unfold run. clear run.
  destruct (_train_sentencepiece env float str_float fuel dataset vocab_size
              maxchars assets_path model_path model_type character_coverage
              data_keys w) as [r w'] eqn:Hrun.
  pose proof Hrun as Hany.
  apply run_any in Hany as (work & rest & Ht & Hwork & Hrest). simpl.
  split; [|split].
  - intros ->. by destruct Hrest.
  - destruct (_dump_chars_to_textfile env dataset maxchars data_keys w)
      as [[[fname n]|e|] w1] eqn:Hdump.
    + pose proof (train_unfold env float str_float dataset vocab_size maxchars
                    assets_path model_path model_type character_coverage
                    data_keys fuel w _ _ _ Hdump) as Heq.
      cbv zeta in Heq. rewrite Hrun, Hrank in Heq. simpl in Heq.
      apply dump_any in Hdump as (_ & _ & Hpc & _).
      destruct (trainer_ok env _); injection Heq as -> ->; simpl; done.
    + rewrite (train_sampler_raised _ _ _ _ _ _ _ _ _ _ _ _ _ _ _ Hdump) in Hrun.
      injection Hrun as <- <-. by apply dump_any in Hdump as (_ & _ & Hpc & _).
    + by apply dump_not_out_of_fuel in Hdump.
  - exists (work ++ rest). split; [done|]. apply Forall_app. split.
    + eapply Forall_impl; [exact Hwork|]. intros []; simpl; tauto.
    + destruct r as [p|e|].
      * destruct Hrest as (_ & _ & [[_ ->]|[? _]]); [|done].
        eapply Forall_impl; [apply publish_events_publishing|].
        intros []; simpl; tauto.
      * destruct Hrest as [-> _]. constructor.
      * by destruct Hrest.
Qed.


End Outcomes.

(** ** The coordinator on concrete runs, continued *)

Lemma trainer_failure_stops_run_witness :
  let argstr := "--input=/tmp/ds_chars0 --vocab_size=100 --character_coverage=1.0 --model_prefix=/tmp/sp_tmp1 --model_type=unigram" in
  trainer_ok (failing_env 1) argstr = false ∧
  ∃ w' m vs,
    _train_sentencepiece (failing_env 1) string id 3 records_A 100 4
      "assets" "assets/tokenizer" "unigram" "1.0" ["text"] fresh_world
    = (Raised (TrainerError argstr), w')
    ∧ trace w' = trace fresh_world
        ++ work_events (failing_env 1) ["text"] (take m records_A) argstr fresh_world
    ∧ Forall working_call
        (work_events (failing_env 1) ["text"] (take m records_A) argstr fresh_world)
    ∧ 6%Z = len (serialize vs)
    ∧ files w' !! "/tmp/ds_chars0" = Some (serialize vs)
    ∧ files w' !! "/tmp/sp_tmp1" = Some []
    ∧ "/tmp/ds_chars0" ≠ "/tmp/sp_tmp1".
Proof.
  split; [reflexivity|].
  apply (trainer_failure_stops_run (failing_env 1) string id records_A 100 4
           "assets" "assets/tokenizer" "unigram" "1.0" ["text"] 3 fresh_world
           "/tmp/ds_chars0" 6).
  - vm_compute. reflexivity.
  - reflexivity.
Defined.

Lemma follower_never_publishes_witness :
  process_index (test_env 1 2) ≠ 0%Z ∧
  let w' := (_train_sentencepiece (test_env 1 2) string id 1 records_A 100 4
               "assets" "assets/tokenizer" "unigram" "1.0" ["text"]
               fresh_world).2 in
  ∃ evs, trace w' = trace fresh_world ++ evs
    ∧ Forall (λ e, ¬ publishing_call e) evs.
Proof.
  split; [done|].
  apply (follower_never_publishes (test_env 1 2) string id records_A 100 4
           "assets" "assets/tokenizer" "unigram" "1.0" ["text"] 1 fresh_world).
  done.
Defined.

Lemma leader_never_waits_witness :
  process_index (test_env 0 5) = 0%Z ∧
  let run := _train_sentencepiece (test_env 0 5) string id 0 records_A 100 4
               "assets" "assets/tokenizer" "unigram" "1.0" ["text"]
               fresh_world in
  run.1 ≠ OutOfFuel
  ∧ poll_count run.2 = poll_count fresh_world
  ∧ ∃ evs, trace run.2 = trace fresh_world ++ evs
      ∧ Forall (λ e, ¬ polling_call e) evs.
Proof.
  split; [reflexivity|].
  apply (leader_never_waits (test_env 0 5) string id records_A 100 4
           "assets" "assets/tokenizer" "unigram" "1.0" ["text"] 0 fresh_world).
  reflexivity.
Defined.


(** ** [train_tokenizer] *)

Section CallerFacts.

Variable env : Env.
Variable float : Type.
Variable str_float : float → string.
Variable float_1_0 : float.
Variable dataset : list (gmap string bytes).
Variables assets_path vocab_path : string.
Variables vocab_size max_corpus_chars : Z.
Variable data_keys : list string.

Lemma train_tokenizer_unfold fuel w :
  train_tokenizer env float str_float float_1_0 fuel dataset assets_path
    vocab_path vocab_size max_corpus_chars data_keys w
  = match _train_sentencepiece env float str_float fuel dataset vocab_size
            max_corpus_chars assets_path vocab_path "unigram" float_1_0
            data_keys
            (add_events w
               [EvLogInfo "SentencePiece vocab not found, building one from data."])
    with
    | (Returned p, w1) =>
        (Returned tt, add_events w1 [EvLogInfo ("Model saved at " +:+ p)])
    | (Raised e, w1) => (Raised e, w1)
    | (OutOfFuel, w1) => (OutOfFuel, w1)
    end.
Proof. reflexivity. Qed.

(** X12.  [train_tokenizer] announces the work first and reports the model
    last.  When the inner call returns, the last call is the log line
    [Model saved at] followed by the absolute model path; before it the
    trainer was called with the defaults [unigram] and [1.0], and the model
    was renamed into place on process 0 or found by a poll on the other
    processes.  When the inner call does not return, the announcement is the
    only log line of the run. *)
Theorem model_saved_is_logged_last fuel w :
  let run := train_tokenizer env float str_float float_1_0 fuel dataset
               assets_path vocab_path vocab_size max_corpus_chars data_keys w in
  let abs_model_path := final_path env vocab_path in
  ∃ evs,
    trace run.2
    = trace w
      ++ EvLogInfo "SentencePiece vocab not found, building one from data." :: evs
    ∧ match run.1 with
      | Returned _ =>
          ∃ inner fname model_fp,
            evs = inner ++ [EvLogInfo ("Model saved at " +:+ abs_model_path)]
            ∧ EvTrain (train_args fname (pretty vocab_size) (str_float float_1_0)
                         model_fp "unigram") ∈ inner
            ∧ (if (process_index env =? 0)%Z
               then EvRename (abs_model_path +:+ ".rntmp") abs_model_path true ∈ inner
               else EvExists abs_model_path true ∈ inner)
      | _ => ∀ msg, EvLogInfo msg ∉ evs
      end.
Proof.
  intros run abs_model_path. unfold run. clear run.
  rewrite train_tokenizer_unfold.
  set (w0 := add_events w
               [EvLogInfo "SentencePiece vocab not found, building one from data."]).
  destruct (_train_sentencepiece env float str_float fuel dataset vocab_size
              max_corpus_chars assets_path vocab_path "unigram" float_1_0
              data_keys w0) as [r w1] eqn:Hrun.
  apply run_any in Hrun as (work & rest & Ht & Hwork & Hrest).
  assert (Hnolog : ∀ msg, EvLogInfo msg ∉ work).
  { intros msg Hin. by apply (proj1 (Forall_forall _ _) Hwork) in Hin. }
  assert (Hnolog' : Forall polling_call rest → ∀ msg, EvLogInfo msg ∉ rest).
  { intros Hpoll msg Hin. by apply (proj1 (Forall_forall _ _) Hpoll) in Hin. }
  destruct r as [p|e|]; cbn [fst snd].
  - destruct Hrest as (-> & [m Hw] & Hrest). fold abs_model_path.
    exists ((work ++ rest) ++ [EvLogInfo ("Model saved at " +:+ abs_model_path)]).
    split.
    { unfold add_events. cbn [trace]. rewrite Ht. unfold w0, add_events.
      cbn [trace]. by rewrite <-!app_assoc. }
    exists (work ++ rest), (scratch_name env w0), (sp_tmp_name env w0).
    split; [done|]. split.
    { apply elem_of_app. left. rewrite Hw. unfold work_events.
      apply elem_of_cons. right. apply elem_of_app. right.
      apply elem_of_cons. right. by apply list_elem_of_singleton. }
    destruct (Z.eqb_spec (process_index env) 0) as [Hrank|Hrank];
      destruct Hrest as [[Hr ->]|(Hr & k & ->)]; try done;
      apply elem_of_app; right.
    + unfold publish_events. fold abs_model_path. apply elem_of_app. right.
      apply elem_of_cons. right. by left.
    + apply elem_of_app. right. by left.
  - destruct Hrest as (-> & _). exists work.
    split; [|done]. rewrite Ht. unfold w0, add_events. cbn [trace].
    by rewrite app_nil_r, <-app_assoc.
  - destruct Hrest as (_ & Hpoll). exists (work ++ rest).
    split.
    + rewrite Ht. unfold w0, add_events. cbn [trace]. by rewrite <-app_assoc.
    + intros msg [Hin|Hin]%elem_of_app; [by eapply Hnolog|by eapply Hnolog'].
Qed.

End CallerFacts.
